(** * SisterSafe web client: network assurance and verification flow

    A shallow embedding of [apps/web/src/app/page.tsx] (the chain-switch
    negotiation [addCeloNetwork] / [ensureCeloNetwork], and [handleVerify])
    and of the verification-refresh hooks of the later revision of the same
    page (the [useReadContract] / [useEffect] pair).

    The wallet provider, wagmi's [switchChain] and [writeContract], and the
    timer are external: they are a record of handlers over an arbitrary
    world type [W].  Asynchronous code is sequential here (a single task of
    control), every [await] being one handler call.  Each function returns
    how its promise settles, the new world, and the events it performed, in
    order. *)

From Stdlib Require Import ZArith List String Ascii Bool Lia HexString.
Import ListNotations.
Local Open Scope string_scope.
Local Open Scope Z_scope.

(** ** JavaScript values used by the page *)

Module Js.

(** A value thrown by the provider, by wagmi or by the page: an object
    (a provider error [{code, message}] or an [Error]) whose [code],
    [data.code] and [message] may each be missing.  Codes are integers, so
    exact [Z] stands for the JS number. *)
Record Error : Type := mkError {
  code : option Z;
  data_code : option Z;
  message : option string
}.

(** [new Error(msg)] *)
Definition new_Error (msg : string) : Error :=
  {| code := None; data_code := None; message := Some msg |}.

(** [e?.code || e?.data?.code]: the left operand when it is truthy
    (a number other than 0), the right one otherwise. *)
Definition code_or_data_code (e : Error) : option Z :=
  match code e with
  | Some c => if c =? 0 then data_code e else Some c
  | None => data_code e
  end.

(** [x === n] for a possibly undefined number [x]. *)
Definition strict_eq (x : option Z) (n : Z) : bool :=
  match x with
  | Some v => v =? n
  | None => false
  end.

(** [e?.message || ''] *)
Definition message_or_empty (e : Error) : string :=
  match message e with
  | Some m => m
  | None => ""
  end.

(** [s.includes(needle)] *)
Fixpoint includes (s needle : string) : bool :=
  if prefix needle s then true
  else match s with
       | EmptyString => false
       | String _ rest => includes rest needle
       end.

(** [e?.message?.includes(needle)], [undefined] (falsy) without message. *)
Definition message_includes (e : Error) (needle : string) : bool :=
  match message e with
  | Some m => includes m needle
  | None => false
  end.

(** White space skipped by [parseInt] (the ASCII part of StrWhiteSpaceChar):
    TAB, LF, VT, FF, CR, SP. *)
Definition is_white_space (c : ascii) : bool :=
  let n := nat_of_ascii c in
  ((9 <=? n) && (n <=? 13))%nat || (n =? 32)%nat.

Fixpoint trim_start (s : string) : string :=
  match s with
  | String c rest => if is_white_space c then trim_start rest else s
  | EmptyString => s
  end.

Definition hex_digit (c : ascii) : option Z :=
  let n := Z.of_nat (nat_of_ascii c) in
  if (48 <=? n) && (n <=? 57) then Some (n - 48)
  else if (97 <=? n) && (n <=? 102) then Some (n - 87)
  else if (65 <=? n) && (n <=? 70) then Some (n - 55)
  else None.

(** Value of the longest prefix of hexadecimal digits, [acc] being the
    value of the [seen] digits read so far; [None] when there is none. *)
Fixpoint hex_digits (s : string) (seen : bool) (acc : Z) : option Z :=
  match s with
  | String c rest =>
      match hex_digit c with
      | Some d => hex_digits rest true (16 * acc + d)
      | None => if seen then Some acc else None
      end
  | EmptyString => if seen then Some acc else None
  end.

Definition strip_sign (s : string) : Z * string :=
  match s with
  | String "-" rest => (-1, rest)
  | String "+" rest => (1, rest)
  | _ => (1, s)
  end.

Definition strip_0x (s : string) : string :=
  match s with
  | String "0" (String "x" rest) => rest
  | String "0" (String "X" rest) => rest
  | _ => s
  end.

(** [parseInt(s, 16)]; [None] is NaN.  The result is the exact integer:
    the page only compares it with a chain id, and for ids below 2^53 the
    comparison of the rounded double agrees with the exact one. *)
Definition parseInt16 (s : string) : option Z :=
  let '(sign, s1) := strip_sign (trim_start s) in
  match hex_digits (strip_0x s1) false 0 with
  | Some v => Some (sign * v)
  | None => None
  end.

(** [n.toString(16)] for an integer [n]. *)
Definition toString16 (n : Z) : string :=
  match n with
  | Z0 => "0"
  | Zpos p => HexString.Raw.of_pos p ""
  | Zneg p => String "-" (HexString.Raw.of_pos p "")
  end.

End Js.

(** ** Configuration imported by the page *)

(** The fields of [celoSepolia] (from [lib/wagmi]) that the page reads. *)
Record Chain : Type := mkChain {
  id : Z;
  name : string;
  nativeCurrency_name : string;
  nativeCurrency_symbol : string;
  nativeCurrency_decimals : Z;
  rpcUrls_default_http : list string;
  blockExplorers_default_url : string
}.

(** The parameter object of [wallet_addEthereumChain]. *)
Record AddEthereumChainParameter : Type := mkAddParam {
  chainId : string;
  chainName : string;
  nativeCurrency : string * string * Z;
  rpcUrls : list string;
  blockExplorerUrls : list string
}.

(** ** Promises, events and the external world *)

(** How a promise settles. *)
Inductive Settled (A : Type) : Type :=
| Resolved (a : A)
| Rejected (e : Js.Error).
Arguments Resolved {A} a.
Arguments Rejected {A} e.

(** What the page does that can be observed from outside, each request
    with the way it settled. *)
Inductive Event : Type :=
| EthChainId (r : Settled string)
| AddEthereumChain (p : AddEthereumChainParameter) (r : Settled unit)
| SwitchChain (target : Z) (r : Settled unit)
| Timeout (ms : Z)
| WriteContract (address functionName : string) (r : Settled string)
| Alert (msg : string)
| ConsoleLog (msg : string)
| ConsoleError (msg : string) (e : Js.Error).

(** The wallet provider and the libraries, over a world [W] that they may
    change at every request (the user can act on the wallet at any time). *)
Record Provider (W : Type) : Type := mkProvider {
  (** is [window.ethereum] there now *)
  window_ethereum : W -> bool;
  (** [ethereum.request({ method: 'eth_chainId' })] *)
  eth_chainId : W -> Settled string * W;
  (** [ethereum.request({ method: 'wallet_addEthereumChain', params })] *)
  wallet_addEthereumChain : AddEthereumChainParameter -> W -> Settled unit * W;
  (** wagmi's [switchChain({ chainId })] *)
  switchChain : Z -> W -> Settled unit * W;
  (** [new Promise(resolve => setTimeout(resolve, ms))] *)
  setTimeout : Z -> W -> W;
  (** wagmi's [writeContract(wagmiConfig, { address, abi, functionName })] *)
  writeContract : string -> string -> W -> Settled string * W
}.
Arguments window_ethereum {W}.
Arguments eth_chainId {W}.
Arguments wallet_addEthereumChain {W}.
Arguments switchChain {W}.
Arguments setTimeout {W}.
Arguments writeContract {W}.

(** ** The monad of asynchronous page code *)

Definition Async (W A : Type) : Type := W -> Settled A * W * list Event.

Definition ret {W A} (a : A) : Async W A :=
  fun w => (Resolved a, w, []).

Definition throw {W A} (e : Js.Error) : Async W A :=
  fun w => (Rejected e, w, []).

Definition bind {W A B} (m : Async W A) (k : A -> Async W B) : Async W B :=
  fun w =>
    match m w with
    | (Resolved a, w1, t1) =>
        let '(r, w2, t2) := k a w1 in (r, w2, (t1 ++ t2)%list)
    | (Rejected e, w1, t1) => (Rejected e, w1, t1)
    end.

(** [try { m } catch (e) { handler e }] *)
Definition try_catch {W A} (m : Async W A) (handler : Js.Error -> Async W A)
  : Async W A :=
  fun w =>
    match m w with
    | (Resolved a, w1, t1) => (Resolved a, w1, t1)
    | (Rejected e, w1, t1) =>
        let '(r, w2, t2) := handler e w1 in (r, w2, (t1 ++ t2)%list)
    end.

(** One awaited request: the handler runs and the event is recorded. *)
Definition request {W A} (h : W -> Settled A * W) (ev : Settled A -> Event)
  : Async W A :=
  fun w => let '(r, w1) := h w in (r, w1, [ev r]).

(** A synchronous effect that cannot fail. *)
Definition emit {W} (ev : Event) : Async W unit :=
  fun w => (Resolved tt, w, [ev]).

(** A read of the world. *)
Definition observe {W A} (f : W -> A) : Async W A :=
  fun w => (Resolved (f w), w, []).

Declare Scope async_scope.
Delimit Scope async_scope with async.
Notation "x <- m ;; k" := (bind m (fun x => k))
  (at level 100, m at next level, right associativity) : async_scope.
Notation "m ;; k" := (bind m (fun _ => k))
  (at level 100, right associativity) : async_scope.
Local Open Scope async_scope.

Definition settled {W A} (x : Settled A * W * list Event) : Settled A :=
  fst (fst x).
Definition world {W A} (x : Settled A * W * list Event) : W :=
  snd (fst x).
Definition trace {W A} (x : Settled A * W * list Event) : list Event :=
  snd x.

(** ** The page *)

Section Page.

Context {W : Type}.
Variable P : Provider W.

(** [celoSepolia] of [lib/wagmi] and the contract address of
    [contracts/sisterSafeConfig]. *)
Variable celoSepolia : Chain.
Variable SISTER_SAFE_CONTRACT_ADDRESS : string.

(** [getEthereum()]: the provider handle, or null. *)
Definition getEthereum : Async W bool := observe (window_ethereum P).

Definition alert (msg : string) : Async W unit := emit (Alert msg).

Definition request_eth_chainId : Async W string :=
  request (eth_chainId P) EthChainId.

(** [await switchChain({ chainId: celoSepolia.id })].  The page wraps the
    call in [try]/[catch], so the handler may reject here; the function
    the page takes from [useSwitchChain()] is the hook's [mutate], which
    never does (see [switch_never_rejects]). *)
Definition call_switchChain : Async W unit :=
  request (switchChain P (id celoSepolia)) (SwitchChain (id celoSepolia)).

(** [parseInt(chain, 16) === celoSepolia.id] *)
Definition is_celo (chain : string) : bool :=
  Js.strict_eq (Js.parseInt16 chain) (id celoSepolia).

Definition celo_param : AddEthereumChainParameter :=
  {| chainId := "0x" ++ Js.toString16 (id celoSepolia);
     chainName := name celoSepolia;
     nativeCurrency := (nativeCurrency_name celoSepolia,
                        nativeCurrency_symbol celoSepolia,
                        nativeCurrency_decimals celoSepolia);
     rpcUrls := rpcUrls_default_http celoSepolia;
     blockExplorerUrls := [blockExplorers_default_url celoSepolia] |}.

(** The condition under which [addCeloNetwork] skips a failed add. *)
Definition network_already_exists (addError : Js.Error) : bool :=
  let errorCode := Js.code_or_data_code addError in
  let errorMessage := Js.message_or_empty addError in
  Js.strict_eq errorCode 4902
  || Js.strict_eq errorCode (-32603)
  || Js.includes errorMessage "same RPC endpoint"
  || Js.includes errorMessage "existing network".

Definition addCeloNetwork : Async W unit :=
  ethereum <- getEthereum ;;
  if negb ethereum then throw (Js.new_Error "MetaMask is not installed")
  else
    try_catch
      (request (wallet_addEthereumChain P celo_param)
               (AddEthereumChain celo_param))
      (fun addError =>
         if network_already_exists addError then
           emit (ConsoleLog "Network already exists in MetaMask, skipping add") ;;
           ret tt
         else throw addError).

(** The condition of the handler around add-then-switch under which the
    switch is issued again. *)
Definition add_failed_network_exists (addError : Js.Error) : bool :=
  let addErrorCode := Js.code_or_data_code addError in
  let addErrorMessage := Js.message_or_empty addError in
  Js.strict_eq addErrorCode (-32603)
  || Js.includes addErrorMessage "same RPC endpoint"
  || Js.includes addErrorMessage "existing network".

(** The inner [try] of the fallback: add the chain, switch again; its
    handler receives what either of the two throws. *)
Definition add_then_switch : Async W unit :=
  try_catch
    (addCeloNetwork ;; call_switchChain)
    (fun addError =>
       if add_failed_network_exists addError then call_switchChain
       else throw addError).

(** "Try to switch first", with the fallback when the switch fails. *)
Definition switch_or_add : Async W unit :=
  try_catch call_switchChain
    (fun switchError =>
       let switchErrorCode := Js.code_or_data_code switchError in
       if Js.strict_eq switchErrorCode 4902 then add_then_switch
       else throw switchError).

(** [await new Promise(resolve => setTimeout(resolve, ms))] *)
Definition sleep (ms : Z) : Async W unit :=
  fun w => (Resolved tt, setTimeout P ms w, [Timeout ms]).

Definition maxAttempts : nat := 10.

(** The polling loop [while (attempts < maxAttempts)] and the two
    statements after it, by recursion on [maxAttempts - attempts]. *)
Fixpoint poll (remaining : nat) : Async W bool :=
  match remaining with
  | O =>
      alert "Please approve the network switch in your wallet and try again." ;;
      ret false
  | S remaining' =>
      sleep 500 ;;
      newChainId <- request_eth_chainId ;;
      if is_celo newChainId then ret true
      else poll remaining'
  end.

(** The outer [catch] of [ensureCeloNetwork]. *)
Definition switch_failed (error : Js.Error) : Async W bool :=
  emit (ConsoleError "Error ensuring Celo network:" error) ;;
  (if Js.strict_eq (Js.code error) 4001 then
     alert "Network switch was rejected. Please switch to Celo Sepolia manually."
   else
     alert "Failed to switch to Celo Sepolia. Please switch manually in your wallet.") ;;
  ret false.

Definition ensureCeloNetwork : Async W bool :=
  ethereum <- getEthereum ;;
  if negb ethereum then
    alert "MetaMask is not installed" ;;
    ret false
  else
    try_catch
      (currentChainId <- request_eth_chainId ;;
       if is_celo currentChainId then ret true
       else
         switch_or_add ;;
         poll maxAttempts)
      switch_failed.

(** "Double-check chain one more time before sending": [true] when
    [handleVerify] goes on to the contract write, [false] when it
    returns. *)
Definition double_check_chain : Async W bool :=
  ethereum <- getEthereum ;;
  if ethereum then
    finalChainId <- request_eth_chainId ;;
    if negb (is_celo finalChainId) then
      alert "Please switch to Celo Sepolia network before verifying." ;;
      ret false
    else ret true
  else ret true.

Definition write_verifyUser : Async W string :=
  request (writeContract P SISTER_SAFE_CONTRACT_ADDRESS "verifyUser")
          (WriteContract SISTER_SAFE_CONTRACT_ADDRESS "verifyUser").

(** [handleVerify], with [isConnected] as the render that created the
    handler saw it. *)
Definition handleVerify (isConnected : bool) : Async W unit :=
  try_catch
    (if negb isConnected then
       alert "Please connect your wallet first."
     else
       isOnCelo <- ensureCeloNetwork ;;
       if negb isOnCelo then ret tt
       else
         proceed <- double_check_chain ;;
         if negb proceed then ret tt
         else
           txHash <- write_verifyUser ;;
           emit (ConsoleLog ("Verification transaction sent: " ++ txHash)) ;;
           alert "Verification transaction sent.")
    (fun error =>
       emit (ConsoleError "Error verifying user:" error) ;;
       if Js.message_includes error "chain" || Js.message_includes error "network" then
         alert "Transaction failed. Please ensure you are on Celo Sepolia network."
       else
         alert "Verification failed. Check console for details.").

(** What the provider answers to a direct chain-id read in world [w]:
    is it the target chain. *)
Definition provider_on_celo (w : W) : bool :=
  match fst (eth_chainId P w) with
  | Resolved chain => is_celo chain
  | Rejected _ => false
  end.

End Page.

(** ** Reading traces *)

Definition is_add (ev : Event) : bool :=
  match ev with AddEthereumChain _ _ => true | _ => false end.

Definition is_switch (ev : Event) : bool :=
  match ev with SwitchChain _ _ => true | _ => false end.

Definition is_write (ev : Event) : bool :=
  match ev with WriteContract _ _ _ => true | _ => false end.

(** The requests that go to the wallet, the chain or the timer; alerts and
    console output are the rest. *)
Definition is_request (ev : Event) : bool :=
  match ev with
  | Alert _ | ConsoleLog _ | ConsoleError _ _ => false
  | _ => true
  end.

Definition add_requests (t : list Event) : nat := List.length (filter is_add t).
Definition switch_requests (t : list Event) : nat := List.length (filter is_switch t).
Definition write_requests (t : list Event) : nat := List.length (filter is_write t).

(** How the successive switch requests of a trace settled. *)
Definition switch_results (t : list Event) : list (Settled unit) :=
  flat_map (fun ev => match ev with SwitchChain _ r => [r] | _ => [] end) t.

(** What the outer [catch] of [ensureCeloNetwork] shows for [error]. *)
Definition failure_report (error : Js.Error) : list Event :=
  [ConsoleError "Error ensuring Celo network:" error;
   Alert (if Js.strict_eq (Js.code error) 4001
          then "Network switch was rejected. Please switch to Celo Sepolia manually."
          else "Failed to switch to Celo Sepolia. Please switch manually in your wallet.")].

(** What the [catch] of [handleVerify] shows for [error]. *)
Definition verify_failure_report (error : Js.Error) : list Event :=
  [ConsoleError "Error verifying user:" error;
   Alert (if Js.message_includes error "chain" || Js.message_includes error "network"
          then "Transaction failed. Please ensure you are on Celo Sepolia network."
          else "Verification failed. Check console for details.")].

(** What [handleVerify] does once the write has settled as [r]. *)
Definition write_report (address : string) (r : Settled string) : list Event :=
  WriteContract address "verifyUser" r ::
  match r with
  | Resolved txHash =>
      [ConsoleLog ("Verification transaction sent: " ++ txHash);
       Alert "Verification transaction sent."]
  | Rejected e => verify_failure_report e
  end.

(** One turn of the polling loop that read [r]. *)
Definition poll_round (r : Settled string) : list Event :=
  [Timeout 500; EthChainId r].

(** A read of the chain id that resolved to another chain than the
    target. *)
Definition read_mismatch (celoSepolia : Chain) (r : Settled string) : bool :=
  match r with
  | Resolved chain => negb (is_celo celoSepolia chain)
  | Rejected _ => false
  end.

(** [sends_only ok m]: every event of every run of [m] satisfies [ok]. *)
Definition sends_only {W A} (ok : Event -> bool) (m : Async W A) : Prop :=
  forall w, Forall (fun ev => ok ev = true) (trace (m w)).

(** The run of the switch that follows the add, and of the further switch
    that the handler issues when that one fails with what the handler
    takes for "the network exists". *)
Definition switch_after_add {W} (P : Provider W) (celoSepolia : Chain) (w : W)
  : Settled unit * W * list Event :=
  let target := id celoSepolia in
  match switchChain P target w with
  | (Resolved u, w1) => (Resolved u, w1, [SwitchChain target (Resolved u)])
  | (Rejected e, w1) =>
      if add_failed_network_exists e then
        (fst (switchChain P target w1), snd (switchChain P target w1),
         [SwitchChain target (Rejected e);
          SwitchChain target (fst (switchChain P target w1))])
      else (Rejected e, w1, [SwitchChain target (Rejected e)])
  end.

(** ** Scripted worlds

    A world that is the number of awaited operations completed so far,
    with a script that tells what each operation answers at each tick. *)

Record Script : Type := mkScript {
  ethereum_at : nat -> bool;
  chainId_at : nat -> Settled string;
  add_at : nat -> Settled unit;
  switch_at : nat -> Settled unit;
  write_at : nat -> Settled string
}.

Definition scripted (s : Script) : Provider nat :=
  {| window_ethereum := ethereum_at s;
     eth_chainId := fun t => (chainId_at s t, S t);
     wallet_addEthereumChain := fun _ t => (add_at s t, S t);
     switchChain := fun _ t => (switch_at s t, S t);
     setTimeout := fun _ t => S t;
     writeContract := fun _ _ t => (write_at s t, S t) |}.

(** Modelled from the spec: [lib/wagmi], which defines [celoSepolia], is not
    among the sources; the spec names the target chain id 11142220, and the
    other fields are those of the public Celo Sepolia testnet.  Only the
    concrete runs below use it. *)
Definition celoSepolia_11142220 : Chain :=
  {| id := 11142220;
     name := "Celo Sepolia";
     nativeCurrency_name := "CELO";
     nativeCurrency_symbol := "CELO";
     nativeCurrency_decimals := 18;
     rpcUrls_default_http := ["https://forno.celo-sepolia.celo-testnet.org"];
     blockExplorers_default_url := "https://celo-sepolia.blockscout.com" |}.

Definition contract_0x5afe : string := "0x5afe".

Definition user_rejected : Js.Error :=
  {| Js.code := Some 4001; Js.data_code := None;
     Js.message := Some "User rejected the request." |}.

Definition unrecognized_chain : Js.Error :=
  {| Js.code := Some 4902; Js.data_code := None;
     Js.message := Some "Unrecognized chain ID." |}.

Definition internal_error : Js.Error :=
  {| Js.code := Some (-32603); Js.data_code := None;
     Js.message := Some "Internal JSON-RPC error." |}.

(** A wallet that is installed and already on the target chain. *)
Definition wallet_on_celo : Script :=
  {| ethereum_at := fun _ => true;
     chainId_at := fun _ => Resolved "0xaa044c";
     add_at := fun _ => Resolved tt;
     switch_at := fun _ => Resolved tt;
     write_at := fun _ => Resolved "0x7a" |}.

(** No wallet extension. *)
Definition no_wallet : Script :=
  {| ethereum_at := fun _ => false;
     chainId_at := fun _ => Rejected (Js.new_Error "no provider");
     add_at := fun _ => Rejected (Js.new_Error "no provider");
     switch_at := fun _ => Rejected (Js.new_Error "no provider");
     write_at := fun _ => Rejected (Js.new_Error "no provider") |}.

(** A wallet whose add request fails with the generic code -32603. *)
Definition add_internal_error : Script :=
  {| ethereum_at := fun _ => true;
     chainId_at := fun _ => Resolved "0x1";
     add_at := fun _ => Rejected internal_error;
     switch_at := fun _ => Resolved tt;
     write_at := fun _ => Resolved "0x7a" |}.

(** A wallet on chain 1 that accepts the switch and never applies it. *)
Definition switch_never_applied : Script :=
  {| ethereum_at := fun _ => true;
     chainId_at := fun _ => Resolved "0x1";
     add_at := fun _ => Resolved tt;
     switch_at := fun _ => Resolved tt;
     write_at := fun _ => Resolved "0x7a" |}.

(** A wallet on the target chain at the first read; then the handle
    [window.ethereum] is gone and the wallet is on chain 1. *)
Definition handle_lost_after_ensure : Script :=
  {| ethereum_at := fun t => (t =? 0)%nat;
     chainId_at := fun t => match t with
                            | O => Resolved "0xaa044c"
                            | _ => Resolved "0x1"
                            end;
     add_at := fun _ => Resolved tt;
     switch_at := fun _ => Resolved tt;
     write_at := fun _ => Resolved "0x7a" |}.

(** ** The verification-refresh hooks

    The later revision of the page reads the verified flag with
    [useReadContract] and refreshes it from an effect that depends on the
    receipt watcher.  A render is summarised by what the hooks returned in
    it; React runs an effect after the first render and after each render
    in which one of its dependencies differs from the previous render. *)

Module Hooks.

Record Render : Type := mkRender {
  (** [useAccount()] *)
  address : option string;
  isConnected : bool;
  (** [isSuccess] of [useWaitForTransactionReceipt({ hash })] *)
  isVerifySuccess : bool;
  (** which function object [refetch] of [useReadContract] is *)
  refetchVerification : nat
}.

(** Truthiness of [address]: defined and not the empty string. *)
Definition truthy (a : option string) : bool :=
  match a with
  | Some s => negb (String.eqb s "")
  | None => false
  end.

(** [args: address ? [address] : undefined] *)
Definition isVerified_args (r : Render) : option (list string) :=
  match address r with
  | Some a => if truthy (Some a) then Some [a] else None
  | None => None
  end.

(** [query: { enabled: !!address && isConnected }] *)
Definition query_enabled (r : Render) : bool :=
  truthy (address r) && isConnected r.

(** What the effect body does. *)
Inductive Action : Type :=
| CallRefetch (fn : nat) (args : option (list string))
| SetVerifying (b : bool)
| SetVerifyTxHash (h : option string).

(** The body of the effect, run in render [r]: the [isVerified] read is
    refetched with the arguments of that render. *)
Definition refetch_effect (r : Render) : list Action :=
  if isVerifySuccess r then
    [CallRefetch (refetchVerification r) (isVerified_args r);
     SetVerifying false;
     SetVerifyTxHash None]
  else [].

(** The dependency array [[isVerifySuccess, refetchVerification]]. *)
Definition deps (r : Render) : bool * nat :=
  (isVerifySuccess r, refetchVerification r).

Definition deps_changed (prev : option Render) (r : Render) : bool :=
  match prev with
  | None => true
  | Some p =>
      negb (Bool.eqb (fst (deps p)) (fst (deps r))
            && Nat.eqb (snd (deps p)) (snd (deps r)))
  end.

(** The actions of the effect over successive renders, [prev] being the
    render before the first of them (none at mount). *)
Fixpoint run_effect (prev : option Render) (renders : list Render) : list Action :=
  match renders with
  | [] => []
  | r :: rest =>
      ((if deps_changed prev r then refetch_effect r else [])
         ++ run_effect (Some r) rest)%list
  end.

Definition is_refetch (a : Action) : bool :=
  match a with CallRefetch _ _ => true | _ => false end.

Definition refetches (l : list Action) : list Action := filter is_refetch l.

End Hooks.

(** The renders of one verification of account 0xabc: two while the
    receipt is awaited, two after it arrived, one after the hash is
    cleared. *)
Definition render_0xabc (success : bool) : Hooks.Render :=
  {| Hooks.address := Some "0xabc";
     Hooks.isConnected := true;
     Hooks.isVerifySuccess := success;
     Hooks.refetchVerification := 7%nat |}.

(** ** Counting the other events *)

Definition is_read (ev : Event) : bool :=
  match ev with EthChainId _ => true | _ => false end.

Definition is_timeout (ev : Event) : bool :=
  match ev with Timeout _ => true | _ => false end.

Definition is_alert (ev : Event) : bool :=
  match ev with Alert _ => true | _ => false end.

Definition alerts (t : list Event) : nat := List.length (filter is_alert t).

(** The requests of the page are all about the one chain: switches go to
    [celoSepolia.id], adds carry its description, waits last 500 ms, and
    writes call [verifyUser] on the contract. *)
Definition about_celo (celoSepolia : Chain) (contract : string) (ev : Event)
  : Prop :=
  match ev with
  | SwitchChain target _ => target = id celoSepolia
  | AddEthereumChain p _ => p = celo_param celoSepolia
  | Timeout ms => ms = 500
  | WriteContract address functionName _ =>
      address = contract /\ functionName = "verifyUser"
  | _ => True
  end.

(** Number of hexadecimal digits of [p]. *)
Fixpoint hex_length (p : positive) : nat :=
  match p with
  | p'~0~0~0~0 | p'~0~0~0~1 | p'~0~0~1~0 | p'~0~0~1~1
  | p'~0~1~0~0 | p'~0~1~0~1 | p'~0~1~1~0 | p'~0~1~1~1
  | p'~1~0~0~0 | p'~1~0~0~1 | p'~1~0~1~0 | p'~1~0~1~1
  | p'~1~1~0~0 | p'~1~1~0~1 | p'~1~1~1~0 | p'~1~1~1~1 => S (hex_length p')
  | _ => 1%nat
  end%positive.

(** A wallet on the target chain while [ensureCeloNetwork] runs, moved to
    chain 1 by its user before the final check. *)
Definition chain_changed_before_submit : Script :=
  {| ethereum_at := fun _ => true;
     chainId_at := fun t => match t with
                            | O => Resolved "0xaa044c"
                            | _ => Resolved "0x1"
                            end;
     add_at := fun _ => Resolved tt;
     switch_at := fun _ => Resolved tt;
     write_at := fun _ => Resolved "0x7a" |}.

(** A wallet whose add request fails without a code, with a message that
    mentions the existing network in the middle. *)
Definition add_fails_existing_network : Script :=
  {| ethereum_at := fun _ => true;
     chainId_at := fun _ => Resolved "0x1";
     add_at := fun _ =>
       Rejected {| Js.code := None; Js.data_code := None;
                   Js.message :=
                     Some ("May not specify default MetaMask chain: "
                           ++ "existing network" ++ " found.") |};
     switch_at := fun _ => Resolved tt;
     write_at := fun _ => Resolved "0x7a" |}.

(** ** The later revision of [handleVerify]

    In the later revision of the page [handleVerify] no longer negotiates
    the chain: it records in the component state that a verification is
    under way, sends the write and keeps the transaction hash for the
    receipt watcher.  The component state is threaded next to the world. *)

Module Later.

Record State : Type := mkState {
  (** [const [verifying, setVerifying] = useState(false)] *)
  verifying : bool;
  (** [const [verifyTxHash, setVerifyTxHash] = useState(null)] *)
  verifyTxHash : option string
}.

Definition initial : State := {| verifying := false; verifyTxHash := None |}.

Definition setVerifying {W} (b : bool) : Async (State * W) unit :=
  fun sw =>
    (Resolved tt,
     ({| verifying := b; verifyTxHash := verifyTxHash (fst sw) |}, snd sw), []).

Definition setVerifyTxHash {W} (h : option string) : Async (State * W) unit :=
  fun sw =>
    (Resolved tt,
     ({| verifying := verifying (fst sw); verifyTxHash := h |}, snd sw), []).

(** Code that only acts on the world. *)
Definition lift {W A} (m : Async W A) : Async (State * W) A :=
  fun sw => let '(r, w1, t) := m (snd sw) in (r, (fst sw, w1), t).

Definition handleVerify {W} (P : Provider W) (CONTRACT : string)
  (isConnected : bool) : Async (State * W) unit :=
  try_catch
    (if negb isConnected then ret tt
     else
       setVerifying true ;;
       txHash <- lift (write_verifyUser P CONTRACT) ;;
       setVerifyTxHash (Some txHash))
    (fun error =>
       emit (ConsoleError "Error verifying user:" error) ;;
       setVerifying false).

(** [disabled={verifying || isVerifyingTx}] of the verify button. *)
Definition verify_disabled (st : State) (isVerifyingTx : bool) : bool :=
  verifying st || isVerifyingTx.

(** The state updates that the refresh effect asks for. *)
Definition apply_action (st : State) (a : Hooks.Action) : State :=
  match a with
  | Hooks.CallRefetch _ _ => st
  | Hooks.SetVerifying b =>
      {| verifying := b; verifyTxHash := verifyTxHash st |}
  | Hooks.SetVerifyTxHash h =>
      {| verifying := verifying st; verifyTxHash := h |}
  end.

Definition apply_actions (l : list Hooks.Action) (st : State) : State :=
  fold_left apply_action l st.

End Later.

(** ** The effect that keeps the wallet on the chain

    [useEffect(() => { if (isConnected && chainId !== celoSepolia.id)
    switchChain({ chainId: celoSepolia.id }) }, [isConnected, chainId,
    switchChain])], over the successive renders of the page. *)

Module AutoSwitch.

Record Render : Type := mkRender {
  (** [useAccount().isConnected] *)
  isConnected : bool;
  (** [useChainId()] *)
  chainId : Z;
  (** which function object [switchChain] of [useSwitchChain] is *)
  switchChain_fn : nat
}.

(** [isConnected && chainId !== celoSepolia.id]: the wallet is connected
    and on another chain. *)
Definition needs_switch (celoSepolia : Chain) (r : Render) : bool :=
  isConnected r && negb (chainId r =? id celoSepolia).

(** The body of the effect: the chain ids it asks [switchChain] for. *)
Definition force_switch (celoSepolia : Chain) (r : Render) : list Z :=
  if needs_switch celoSepolia r then [id celoSepolia] else [].

Definition deps_changed (prev : option Render) (r : Render) : bool :=
  match prev with
  | None => true
  | Some p =>
      negb (Bool.eqb (isConnected p) (isConnected r)
            && (chainId p =? chainId r)
            && Nat.eqb (switchChain_fn p) (switchChain_fn r))
  end.

Fixpoint run_effect (celoSepolia : Chain) (prev : option Render)
  (renders : list Render) : list Z :=
  match renders with
  | [] => []
  | r :: rest =>
      ((if deps_changed prev r then force_switch celoSepolia r else [])
         ++ run_effect celoSepolia (Some r) rest)%list
  end.

End AutoSwitch.

(** ** Geolocation

    [useGeolocation] and the "Send location" button.  Coordinates are
    numbers the page only passes on, so their type is left open, and so is
    [geohash.encode]. *)

Module Geo.

Section Geolocation.

Variable number : Type.
Variable geohash_encode : number -> number -> nat -> string.

Record Coords : Type := mkCoords { lat : number; lon : number }.

Inductive GeoState : Type :=
| idle
| loading
| success (coords : Coords)
| error (message : string).

(** What [getCurrentPosition] calls back with. *)
Inductive Answer : Type :=
| Position (latitude longitude : number)
| PositionError (message : string).

Record Browser : Type := mkBrowser {
  (** [typeof window !== 'undefined' && 'geolocation' in navigator] *)
  has_geolocation : bool;
  (** the callback of [getCurrentPosition], if it has come *)
  answer : option Answer
}.

(** [msg || fallback] *)
Definition or_default (msg fallback : string) : string :=
  if String.eqb msg "" then fallback else msg.

(** [requestLocation]: the states it sets, in order. *)
Definition requestLocation (b : Browser) : list GeoState :=
  if negb (has_geolocation b) then
    [error "Geolocation is not supported in this environment."]
  else
    loading ::
    match answer b with
    | Some (Position latitude longitude) =>
        [success {| lat := latitude; lon := longitude |}]
    | Some (PositionError message) =>
        [error (or_default message "Unable to get your location.")]
    | None => []
    end.

(** The state of the hook after the calls of [l], starting from [st]. *)
Definition after (st : GeoState) (l : list GeoState) : GeoState :=
  last l st.

(** [geohash5] of a render. *)
Definition geohash5 (st : GeoState) : option string :=
  match st with
  | success coords => Some (geohash_encode (lat coords) (lon coords) 5)
  | _ => None
  end.

Definition truthy (g : option string) : bool :=
  match g with
  | Some s => negb (String.eqb s "")
  | None => false
  end.

Definition is_success (st : GeoState) : bool :=
  match st with success _ => true | _ => false end.

(** [disabled={state.status !== 'success' || !geohash5}] *)
Definition send_disabled (st : GeoState) : bool :=
  negb (is_success st) || negb (truthy (geohash5 st)).

(** What [sendLocationToChain] logs. *)
Record Sent : Type := mkSent {
  sent_lat : number; sent_lon : number; sent_geohash5 : string
}.

(** The click handler of the button: the calls of [sendLocationToChain]. *)
Definition onClick_send (st : GeoState) : list Sent :=
  match st, geohash5 st with
  | success coords, Some g =>
      if truthy (Some g)
      then [{| sent_lat := lat coords; sent_lon := lon coords;
               sent_geohash5 := g |}]
      else []
  | _, _ => []
  end.

End Geolocation.

End Geo.

(** A page that is connected and stays on chain 1, rendered with the
    same [switchChain] function. *)
Definition render_on_chain_1 : AutoSwitch.Render :=
  {| AutoSwitch.isConnected := true;
     AutoSwitch.chainId := 1;
     AutoSwitch.switchChain_fn := 3%nat |}.

(** ** The first revision of [handleVerify]

    The earliest revision of the page sends the write as soon as the wallet
    is connected, and tells the user how it went. *)

Module First.

Definition handleVerify {W} (P : Provider W) (CONTRACT : string)
  (isConnected : bool) : Async W unit :=
  try_catch
    (if negb isConnected then
       emit (Alert "❌ Please connect your wallet first.")
     else
       txHash <- write_verifyUser P CONTRACT ;;
       emit (ConsoleLog ("✅ Verification TX sent: " ++ txHash)) ;;
       emit (Alert "✅ Verification transaction sent!"))
    (fun error =>
       emit (ConsoleError "❌ Error verifying user:" error) ;;
       emit (Alert "❌ Verification failed. Check console for details.")).

End First.

(** A wallet that does not answer the chain-id request. *)
Definition read_fails : Script :=
  {| ethereum_at := fun _ => true;
     chainId_at := fun _ => Rejected internal_error;
     add_at := fun _ => Resolved tt;
     switch_at := fun _ => Resolved tt;
     write_at := fun _ => Resolved "0x7a" |}.

(** ** The [switchChain] of wagmi

    [const { switchChain } = useSwitchChain()] gives the page the hook's
    [mutate]: it hands the request to wagmi and returns [undefined] at
    once.  What the wallet answers (a decline, an unknown chain) goes to
    the state of the hook, never to the caller, so [await switchChain(...)]
    always resolves. *)

Definition switch_never_rejects {W} (P : Provider W) : Prop :=
  forall target w, fst (switchChain P target w) = Resolved tt.

(** A scripted world behind that [switchChain]: the wallet still answers
    the switch request with [switch_at s t], but the page is not told. *)
Definition scripted_mutate (s : Script) : Provider nat :=
  {| window_ethereum := ethereum_at s;
     eth_chainId := fun t => (chainId_at s t, S t);
     wallet_addEthereumChain := fun _ t => (add_at s t, S t);
     switchChain := fun _ t => (Resolved tt, S t);
     setTimeout := fun _ t => S t;
     writeContract := fun _ _ t => (write_at s t, S t) |}.

(** A wallet on chain 1 that does not know the target chain: it answers
    the switch request with 4902 and stays on chain 1; it would accept a
    request to add the chain. *)
Definition unknown_chain_wallet : Script :=
  {| ethereum_at := fun _ => true;
     chainId_at := fun _ => Resolved "0x1";
     add_at := fun _ => Resolved tt;
     switch_at := fun _ => Rejected unrecognized_chain;
     write_at := fun _ => Resolved "0x7a" |}.

(** A wallet on chain 1 whose user declines the switch prompt (4001) and
    then moves the wallet to the target chain by hand, about two seconds
    later (the fourth poll is the first to see it). *)
Definition declined_then_switched_by_hand : Script :=
  {| ethereum_at := fun _ => true;
     chainId_at := fun t => if (t <? 9)%nat then Resolved "0x1"
                            else Resolved "0xaa044c";
     add_at := fun _ => Resolved tt;
     switch_at := fun _ => Rejected user_rejected;
     write_at := fun _ => Resolved "0x7a" |}.

(** A wallet on the target chain whose first answer to the chain-id
    request is a failure. *)
Definition read_fails_once : Script :=
  {| ethereum_at := fun _ => true;
     chainId_at := fun t => match t with
                            | O => Rejected internal_error
                            | _ => Resolved "0xaa044c"
                            end;
     add_at := fun _ => Resolved tt;
     switch_at := fun _ => Resolved tt;
     write_at := fun _ => Resolved "0x7a" |}.

(** A wallet whose add request fails with code 4902. *)
Definition add_unrecognized_chain : Script :=
  {| ethereum_at := fun _ => true;
     chainId_at := fun _ => Resolved "0x1";
     add_at := fun _ => Rejected unrecognized_chain;
     switch_at := fun _ => Resolved tt;
     write_at := fun _ => Resolved "0x7a" |}.

(** ** Errors by their fields *)

(** [e] carries the code [c]: in [code], or in [data.code] when [code] is
    missing or 0. *)
Definition has_code (e : Js.Error) (c : Z) : Prop :=
  (Js.code e = Some c /\ c <> 0)
  \/ ((Js.code e = None \/ Js.code e = Some 0) /\ Js.data_code e = Some c).

(** [needle] occurs somewhere in [s]. *)
Definition contains (s needle : string) : Prop :=
  exists before after, s = before ++ needle ++ after.

(** [e] has a message and [needle] occurs in it. *)
Definition message_contains (e : Js.Error) (needle : string) : Prop :=
  exists m, Js.message e = Some m /\ contains m needle.

(** The condition AlreadyRegistered in the words of the spec: the failure
    is recognised by its message text (code -32603 being a generic
    failure that says nothing by itself), the "already exists" texts being
    the two the page looks for. *)
Definition AlreadyRegistered_by_message (e : Js.Error) : Prop :=
  message_contains e "same RPC endpoint"
  \/ message_contains e "existing network".

(** * Properties *)

Section PageFacts.

Context {W : Type}.
Variable P : Provider W.
Variable celoSepolia : Chain.
Variable CONTRACT : string.

Local Abbreviation ensure := (ensureCeloNetwork P celoSepolia).
Local Abbreviation verify := (handleVerify P celoSepolia CONTRACT).
Local Abbreviation celo := (is_celo celoSepolia).
Local Abbreviation mismatch := (fun r => read_mismatch celoSepolia r = true).
Local Abbreviation target := (id celoSepolia).
Local Abbreviation param := (celo_param celoSepolia).

Local Abbreviation timed_out_alert :=
  (Alert "Please approve the network switch in your wallet and try again.").

(** *** Running [bind] and [try_catch] on a known first step *)

Lemma bind_resolved {A B} (m : Async W A) (k : A -> Async W B) w a w1 t1 :
  m w = (Resolved a, w1, t1) ->
  bind m k w = (settled (k a w1), world (k a w1), (t1 ++ trace (k a w1))%list).
Proof.
  intros H. unfold bind. rewrite H.
  destruct (k a w1) as [[r w2] t2]. reflexivity.
Qed.

Lemma bind_rejected {A B} (m : Async W A) (k : A -> Async W B) w e w1 t1 :
  m w = (Rejected e, w1, t1) ->
  bind m k w = (Rejected e, w1, t1).
Proof. intros H. unfold bind. rewrite H. reflexivity. Qed.

Lemma try_resolved {A} (m : Async W A) handler w a w1 t1 :
  m w = (Resolved a, w1, t1) ->
  try_catch m handler w = (Resolved a, w1, t1).
Proof. intros H. unfold try_catch. rewrite H. reflexivity. Qed.

Lemma try_rejected {A} (m : Async W A) handler w e w1 t1 :
  m w = (Rejected e, w1, t1) ->
  try_catch m handler w =
  (settled (handler e w1), world (handler e w1),
   (t1 ++ trace (handler e w1))%list).
Proof.
  intros H. unfold try_catch. rewrite H.
  destruct (handler e w1) as [[r w2] t2]. reflexivity.
Qed.

(** *** Unfolding one step of the code *)

Lemma poll_O w :
  poll P celoSepolia 0 w = (Resolved false, w, [timed_out_alert]).
Proof. reflexivity. Qed.

Lemma poll_S n w :
  poll P celoSepolia (S n) w =
  match eth_chainId P (setTimeout P 500 w) with
  | (Resolved chain, w2) =>
      if celo chain then
        (Resolved true, w2, poll_round (Resolved chain))
      else
        let '(r, w3, t) := poll P celoSepolia n w2 in
        (r, w3, (poll_round (Resolved chain) ++ t)%list)
  | (Rejected e, w2) => (Rejected e, w2, poll_round (Rejected e))
  end.
Proof.
  cbn [poll]. unfold bind, sleep, request_eth_chainId, request, ret.
  destruct (eth_chainId P (setTimeout P 500 w)) as [[chain | e] w2]; cbn.
  - destruct (celo chain); cbn; [reflexivity |].
    destruct (poll P celoSepolia n w2) as [[r w3] t]. reflexivity.
  - reflexivity.
Qed.

Lemma strict_eq_true x n : Js.strict_eq x n = true <-> x = Some n.
Proof.
  unfold Js.strict_eq. destruct x as [v |].
  - rewrite Z.eqb_eq. split; congruence.
  - split; discriminate.
Qed.

Lemma switch_failed_run error (w : W) :
  switch_failed error w = (Resolved false, w, failure_report error).
Proof.
  unfold switch_failed, failure_report, bind, emit, alert, ret.
  destruct (Js.strict_eq (Js.code error) 4001); reflexivity.
Qed.

(** A failure that [addCeloNetwork] rethrows is rethrown by the handler
    around it as well. *)
Lemma add_failed_network_exists_skipped e :
  network_already_exists e = false -> add_failed_network_exists e = false.
Proof.
  unfold network_already_exists, add_failed_network_exists.
  intros H. repeat (apply orb_false_iff in H; destruct H as [H ?]).
  repeat (apply orb_false_iff; split); assumption.
Qed.

Lemma addCeloNetwork_run w :
  addCeloNetwork P celoSepolia w =
  if window_ethereum P w then
    match wallet_addEthereumChain P param w with
    | (Resolved u, w1) => (Resolved u, w1, [AddEthereumChain param (Resolved u)])
    | (Rejected e, w1) =>
        if network_already_exists e then
          (Resolved tt, w1,
           [AddEthereumChain param (Rejected e);
            ConsoleLog "Network already exists in MetaMask, skipping add"])
        else (Rejected e, w1, [AddEthereumChain param (Rejected e)])
    end
  else (Rejected (Js.new_Error "MetaMask is not installed"), w, []).
Proof.
  unfold addCeloNetwork, bind, getEthereum, observe, try_catch, request, throw.
  destruct (window_ethereum P w); cbn; [| reflexivity].
  destruct (wallet_addEthereumChain P param w) as [[u | e] w1]; [reflexivity |].
  destruct (network_already_exists e); reflexivity.
Qed.

Lemma call_switchChain_run w :
  call_switchChain P celoSepolia w =
  (fst (switchChain P target w), snd (switchChain P target w),
   [SwitchChain target (fst (switchChain P target w))]).
Proof.
  unfold call_switchChain, request.
  destruct (switchChain P target w); reflexivity.
Qed.

Lemma add_then_switch_run w :
  add_then_switch P celoSepolia w =
  match addCeloNetwork P celoSepolia w with
  | (Resolved _, w1, t) =>
      let '(r, w2, t') := switch_after_add P celoSepolia w1 in (r, w2, (t ++ t')%list)
  | (Rejected e, w1, t) => (Rejected e, w1, t)
  end.
Proof.
  unfold add_then_switch, try_catch, bind. rewrite addCeloNetwork_run.
  destruct (window_ethereum P w).
  - destruct (wallet_addEthereumChain P param w) as [[u | e] w1].
    + rewrite call_switchChain_run. unfold switch_after_add.
      destruct (switchChain P target w1) as [[u' | e'] w2]; cbn; [reflexivity |].
      destruct (add_failed_network_exists e'); [| reflexivity].
      rewrite call_switchChain_run. reflexivity.
    + destruct (network_already_exists e) eqn:He.
      * rewrite call_switchChain_run. unfold switch_after_add.
        destruct (switchChain P target w1) as [[u' | e'] w2]; cbn; [reflexivity |].
        destruct (add_failed_network_exists e'); [| reflexivity].
        rewrite call_switchChain_run. reflexivity.
      * rewrite (add_failed_network_exists_skipped _ He). reflexivity.
  - reflexivity.
Qed.

Lemma switch_or_add_run w :
  switch_or_add P celoSepolia w =
  match switchChain P target w with
  | (Resolved u, w1) => (Resolved u, w1, [SwitchChain target (Resolved u)])
  | (Rejected e, w1) =>
      if Js.strict_eq (Js.code_or_data_code e) 4902 then
        let '(r, w2, t) := add_then_switch P celoSepolia w1 in
        (r, w2, SwitchChain target (Rejected e) :: t)
      else (Rejected e, w1, [SwitchChain target (Rejected e)])
  end.
Proof.
  unfold switch_or_add, try_catch. rewrite call_switchChain_run.
  destruct (switchChain P target w) as [[u | e] w1]; cbn; [reflexivity |].
  destruct (Js.strict_eq (Js.code_or_data_code e) 4902); [| reflexivity].
  destruct (add_then_switch P celoSepolia w1) as [[r w2] t]. reflexivity.
Qed.

Lemma ensure_absent w :
  window_ethereum P w = false ->
  ensure w = (Resolved false, w, [Alert "MetaMask is not installed"]).
Proof.
  intros H. unfold ensureCeloNetwork, bind, getEthereum, observe.
  rewrite H. reflexivity.
Qed.

Lemma ensure_present w :
  window_ethereum P w = true ->
  ensure w =
  match eth_chainId P w with
  | (Resolved chain, w1) =>
      if celo chain then (Resolved true, w1, [EthChainId (Resolved chain)])
      else
        match switch_or_add P celoSepolia w1 with
        | (Resolved _, w2, t) =>
            match poll P celoSepolia maxAttempts w2 with
            | (Resolved b, w3, tp) =>
                (Resolved b, w3, (EthChainId (Resolved chain) :: t ++ tp)%list)
            | (Rejected e, w3, tp) =>
                (Resolved false, w3,
                 (EthChainId (Resolved chain) :: t ++ tp ++ failure_report e)%list)
            end
        | (Rejected e, w2, t) =>
            (Resolved false, w2,
             (EthChainId (Resolved chain) :: t ++ failure_report e)%list)
        end
  | (Rejected e, w1) =>
      (Resolved false, w1, EthChainId (Rejected e) :: failure_report e)
  end.
Proof.
  intros H. unfold ensureCeloNetwork, bind at 1, getEthereum, observe.
  rewrite H. cbn [negb]. unfold try_catch, bind, request_eth_chainId, request at 1.
  destruct (eth_chainId P w) as [[chain | e] w1].
  - destruct (celo chain); [reflexivity |].
    destruct (switch_or_add P celoSepolia w1) as [[[u | e] w2] t].
    + destruct (poll P celoSepolia maxAttempts w2) as [[[b | e] w3] tp].
      * reflexivity.
      * rewrite switch_failed_run. cbn. now rewrite <- app_assoc.
    + rewrite switch_failed_run. reflexivity.
  - rewrite switch_failed_run. reflexivity.
Qed.

(** *** The polling loop *)

(** Every run of the loop is a sequence of rounds, each a 500 ms wait and
    one read: it stops at the first read that is the target (true), at
    the first read that fails (the failure is thrown), or after
    [n] rounds that all read another chain (alert, false). *)
Lemma poll_outcome n : forall w,
  exists polls rest,
    trace (poll P celoSepolia n w) = (flat_map poll_round polls ++ rest)%list /\
    ((exists rs chain,
         settled (poll P celoSepolia n w) = Resolved true /\
         polls = (rs ++ [Resolved chain])%list /\ celo chain = true /\
         Forall mismatch rs /\ (List.length rs < n)%nat /\ rest = [])
     \/ (settled (poll P celoSepolia n w) = Resolved false /\
         Forall mismatch polls /\ List.length polls = n /\
         rest = [timed_out_alert])
     \/ (exists rs e,
         settled (poll P celoSepolia n w) = Rejected e /\
         polls = (rs ++ [Rejected e])%list /\
         Forall mismatch rs /\ (List.length rs < n)%nat /\ rest = [])).
Proof.
  induction n as [| n IH]; intro w.
  - exists [], [timed_out_alert]. split; [reflexivity |].
    right; left. repeat split; constructor.
  - rewrite poll_S.
    destruct (eth_chainId P (setTimeout P 500 w)) as [[chain | e] w2].
    + destruct (celo chain) eqn:Hc.
      * exists [Resolved chain], []. split; [reflexivity |].
        left. exists [], chain. cbn. repeat split; auto; lia.
      * destruct (IH w2) as (polls & rest & Ht & Hcases).
        destruct (poll P celoSepolia n w2) as [[r w3] t].
        unfold trace, settled in *; cbn [fst snd] in *. subst t.
        assert (Hm : mismatch (Resolved chain)) by (cbn; now rewrite Hc).
        exists (Resolved chain :: polls), rest.
        split; [reflexivity |].
        destruct Hcases as [(rs & c' & Hr & Hp & Hc' & Hall & Hlen & Hrest)
                           | [(Hr & Hall & Hlen & Hrest)
                             | (rs & e & Hr & Hp & Hall & Hlen & Hrest)]].
        -- left. exists (Resolved chain :: rs), c'. subst polls.
           cbn [List.length]. repeat split; auto; lia.
        -- right; left. cbn [List.length]. repeat split; auto.
        -- right; right. exists (Resolved chain :: rs), e. subst polls.
           cbn [List.length]. repeat split; auto; lia.
    + exists [Rejected e], []. split; [reflexivity |].
      right; right. exists [], e. cbn. repeat split; auto; lia.
Qed.

Lemma double_check_chain_run w :
  double_check_chain P celoSepolia w =
  if window_ethereum P w then
    match eth_chainId P w with
    | (Resolved chain, w1) =>
        if celo chain then (Resolved true, w1, [EthChainId (Resolved chain)])
        else (Resolved false, w1,
              [EthChainId (Resolved chain);
               Alert "Please switch to Celo Sepolia network before verifying."])
    | (Rejected e, w1) => (Rejected e, w1, [EthChainId (Rejected e)])
    end
  else (Resolved true, w, []).
Proof.
  unfold double_check_chain, bind, getEthereum, observe, request_eth_chainId,
    request, alert, emit, ret.
  destruct (window_ethereum P w); [| reflexivity].
  destruct (eth_chainId P w) as [[chain | e] w1]; [| reflexivity].
  destruct (celo chain); reflexivity.
Qed.

Lemma verify_failed_run error (w : W) :
  (emit (ConsoleError "Error verifying user:" error) ;;
   if Js.message_includes error "chain" || Js.message_includes error "network"
   then alert "Transaction failed. Please ensure you are on Celo Sepolia network."
   else alert "Verification failed. Check console for details.")%async w
  = (Resolved tt, w, verify_failure_report error).
Proof.
  unfold verify_failure_report, bind, emit, alert.
  destruct (Js.message_includes error "chain" || Js.message_includes error "network");
    reflexivity.
Qed.

Lemma verify_not_connected w :
  verify false w = (Resolved tt, w, [Alert "Please connect your wallet first."]).
Proof. reflexivity. Qed.

Lemma verify_connected w :
  verify true w =
  match ensure w with
  | (Resolved false, w1, t) => (Resolved tt, w1, t)
  | (Rejected e, w1, t) => (Resolved tt, w1, (t ++ verify_failure_report e)%list)
  | (Resolved true, w1, t) =>
      match double_check_chain P celoSepolia w1 with
      | (Resolved false, w2, t2) => (Resolved tt, w2, (t ++ t2)%list)
      | (Rejected e, w2, t2) =>
          (Resolved tt, w2, (t ++ t2 ++ verify_failure_report e)%list)
      | (Resolved true, w2, t2) =>
          (Resolved tt, snd (writeContract P CONTRACT "verifyUser" w2),
           (t ++ t2 ++
              write_report CONTRACT
                (fst (writeContract P CONTRACT "verifyUser" w2)))%list)
      end
  end.
Proof.
  unfold handleVerify, try_catch, bind, write_verifyUser, request, emit, alert, ret.
  cbn [negb].
  destruct (ensure w) as [[[[|] | e] w1] t]; cbn [negb].
  - destruct (double_check_chain P celoSepolia w1) as [[[[|] | e] w2] t2]; cbn [negb].
    + destruct (writeContract P CONTRACT "verifyUser" w2) as [[h | e] w3];
        unfold write_report, verify_failure_report; cbn [fst snd].
      * cbn. rewrite <- ?app_assoc. reflexivity.
      * destruct (Js.message_includes e "chain" || Js.message_includes e "network");
          cbn; rewrite <- ?app_assoc; reflexivity.
    + cbn. rewrite app_nil_r. reflexivity.
    + unfold verify_failure_report.
      destruct (Js.message_includes e "chain" || Js.message_includes e "network");
        cbn; rewrite <- ?app_assoc; reflexivity.
  - cbn. rewrite app_nil_r. reflexivity.
  - unfold verify_failure_report.
    destruct (Js.message_includes e "chain" || Js.message_includes e "network");
      reflexivity.
Qed.

(** [ensureCeloNetwork] never rejects, and what it did last tells how it
    resolved: a successful read of the target chain for [true], an alert
    for [false]. *)
Lemma ensure_last_event w :
  (settled (ensure w) = Resolved true /\
   exists t chain,
     trace (ensure w) = (t ++ [EthChainId (Resolved chain)])%list /\
     celo chain = true)
  \/ (settled (ensure w) = Resolved false /\
      exists t msg, trace (ensure w) = (t ++ [Alert msg])%list).
Proof.
  destruct (window_ethereum P w) eqn:Heth.
  2: { right. rewrite (ensure_absent _ Heth). split; [reflexivity |].
       now exists [], "MetaMask is not installed". }
  rewrite (ensure_present _ Heth).
  destruct (eth_chainId P w) as [[chain | e] w1].
  - destruct (celo chain) eqn:Hc.
    + left. split; [reflexivity |]. now exists [], chain.
    + destruct (switch_or_add P celoSepolia w1) as [[[u | e] w2] t].
      * destruct (poll_outcome maxAttempts w2) as (polls & rest & Ht & Hcases).
        destruct (poll P celoSepolia maxAttempts w2) as [[r w3] tp].
        unfold settled, trace in *; cbn [fst snd] in *. subst tp.
        destruct Hcases as [(rs & c' & Hr & Hp & Hc' & _ & _ & Hrest)
                           | [(Hr & _ & _ & Hrest)
                             | (rs & e & Hr & Hp & _ & _ & Hrest)]];
          subst r rest.
        -- left. split; [reflexivity |].
           exists (EthChainId (Resolved chain) :: t
                     ++ flat_map poll_round rs ++ [Timeout 500])%list, c'.
           split; [| assumption]. subst polls.
           rewrite flat_map_app. cbn. rewrite app_nil_r.
           rewrite <- !app_assoc. reflexivity.
        -- right. split; [reflexivity |].
           eexists (EthChainId (Resolved chain) :: t ++ flat_map poll_round polls)%list, _.
           cbn. rewrite <- !app_assoc. reflexivity.
        -- right. split; [reflexivity |].
           eexists (EthChainId (Resolved chain) :: t ++ flat_map poll_round polls
                      ++ [ConsoleError "Error ensuring Celo network:" e])%list, _.
           unfold failure_report. cbn. rewrite app_nil_r.
           rewrite <- !app_assoc. reflexivity.
      * right. split; [reflexivity |].
        eexists (EthChainId (Resolved chain) :: t
                   ++ [ConsoleError "Error ensuring Celo network:" e])%list, _.
        unfold failure_report. cbn. rewrite <- !app_assoc. reflexivity.
  - right. split; [reflexivity |].
    eexists [EthChainId (Rejected e); ConsoleError "Error ensuring Celo network:" e], _.
    unfold failure_report. reflexivity.
Qed.

Lemma ensure_never_rejects w :
  exists b, settled (ensure w) = Resolved b.
Proof.
  destruct (ensure_last_event w) as [[H _] | [H _]]; eauto.
Qed.

(** *** Which requests a piece of code can send *)

Lemma sends_only_ret {A} ok (a : A) : sends_only ok (@ret W A a).
Proof. intros w. constructor. Qed.

Lemma sends_only_throw {A} ok e : sends_only ok (@throw W A e).
Proof. intros w. constructor. Qed.

Lemma sends_only_observe {A} ok (f : W -> A) : sends_only ok (observe f).
Proof. intros w. constructor. Qed.

Lemma sends_only_emit ok ev : ok ev = true -> sends_only ok (@emit W ev).
Proof. intros H w. repeat constructor. exact H. Qed.

Lemma sends_only_request {A} ok (h : W -> Settled A * W) ev :
  (forall r, ok (ev r) = true) -> sends_only ok (request h ev).
Proof.
  intros H w. unfold request, trace. destruct (h w) as [r w1]. cbn.
  repeat constructor. apply H.
Qed.

Lemma sends_only_sleep ok ms : ok (Timeout ms) = true -> sends_only ok (sleep P ms).
Proof. intros H w. repeat constructor. exact H. Qed.

Lemma sends_only_bind {A B} ok (m : Async W A) (k : A -> Async W B) :
  sends_only ok m -> (forall a, sends_only ok (k a)) -> sends_only ok (bind m k).
Proof.
  intros Hm Hk w. specialize (Hm w). unfold bind, trace in *.
  destruct (m w) as [[[a | e] w1] t1]; cbn in *; [| exact Hm].
  specialize (Hk a w1). unfold trace in Hk.
  destruct (k a w1) as [[r w2] t2]. cbn in *.
  apply Forall_app. split; assumption.
Qed.

Lemma sends_only_try {A} ok (m : Async W A) handler :
  sends_only ok m -> (forall e, sends_only ok (handler e)) ->
  sends_only ok (try_catch m handler).
Proof.
  intros Hm Hh w. specialize (Hm w). unfold try_catch, trace in *.
  destruct (m w) as [[[a | e] w1] t1]; cbn in *; [exact Hm |].
  specialize (Hh e w1). unfold trace in Hh.
  destruct (handler e w1) as [[r w2] t2]. cbn in *.
  apply Forall_app. split; assumption.
Qed.

Lemma sends_only_if {A} ok (b : bool) (m1 m2 : Async W A) :
  sends_only ok m1 -> sends_only ok m2 -> sends_only ok (if b then m1 else m2).
Proof. destruct b; auto. Qed.

Ltac sends_only_step :=
  first
    [ apply sends_only_ret | apply sends_only_throw | apply sends_only_observe
    | apply sends_only_emit; reflexivity
    | apply sends_only_request; intros; reflexivity
    | apply sends_only_sleep; reflexivity
    | apply sends_only_bind; [| intros ?]
    | apply sends_only_try; [| intros ?]
    | apply sends_only_if ].

(** [ensureCeloNetwork] never writes to the contract. *)
Lemma ensure_sends_no_write :
  sends_only (fun ev => negb (is_write ev)) ensure.
Proof.
  unfold ensureCeloNetwork, switch_failed, switch_or_add, add_then_switch,
    addCeloNetwork, call_switchChain, request_eth_chainId, getEthereum, alert.
  repeat sends_only_step.
Qed.

(** The polling loop sends neither switch nor add requests. *)
Lemma poll_sends_no_switch_add n :
  sends_only (fun ev => negb (is_switch ev) && negb (is_add ev))
             (poll P celoSepolia n).
Proof.
  induction n as [| n IH]; cbn [poll]; unfold alert, request_eth_chainId.
  - repeat sends_only_step.
  - repeat sends_only_step. exact IH.
Qed.

Lemma filter_none {A} (f : A -> bool) l :
  Forall (fun x => f x = false) l -> filter f l = [].
Proof.
  induction 1 as [| x l Hx _ IH]; [reflexivity |]. cbn. now rewrite Hx.
Qed.

Lemma poll_counts n w :
  filter is_switch (trace (poll P celoSepolia n w)) = [] /\
  filter is_add (trace (poll P celoSepolia n w)) = [] /\
  switch_results (trace (poll P celoSepolia n w)) = [].
Proof.
  pose proof (poll_sends_no_switch_add n w) as H.
  induction H as [| ev l Hev _ (IH1 & IH2 & IH3)]; [auto |].
  apply andb_true_iff in Hev as [Hs Ha].
  apply negb_true_iff in Hs, Ha.
  unfold switch_results in *. cbn. rewrite Hs, Ha.
  destruct ev; try discriminate; cbn; auto.
Qed.

(** *** The claims about [ensureCeloNetwork] *)

(** C1, as amended.  [ensureCeloNetwork] never rejects, and it resolves
    true exactly when the last thing it did is a chain-id read made
    directly on the provider that resolved to the target chain: it never
    resolves true on a read of another chain.  It can resolve false while
    the provider is on the target chain when the call settles. *)
Theorem ensure_true_iff_last_read_is_target w :
  (exists b, settled (ensure w) = Resolved b) /\
  (settled (ensure w) = Resolved true <->
   exists t chain,
     trace (ensure w) = (t ++ [EthChainId (Resolved chain)])%list /\
     celo chain = true).
Proof.
  split; [apply ensure_never_rejects |].
  split.
  - intros Htrue.
    destruct (ensure_last_event w) as [[_ H] | [Hfalse _]]; [exact H |].
    rewrite Hfalse in Htrue. discriminate.
  - intros (t & chain & Ht & _).
    destruct (ensure_last_event w) as [[H _] | [_ (t' & msg & Ht')]]; [exact H |].
    rewrite Ht in Ht'. apply app_inj_tail in Ht' as [_ Ht']. discriminate.
Qed.

(** C2, as amended.  Without a provider handle [ensureCeloNetwork] shows
    the alert "MetaMask is not installed" and resolves false (it does not
    reject); [handleVerify] then returns, having sent no request to the
    wallet, the chain or the timer and left the world as it was. *)
Theorem provider_absent_no_request w isConnected :
  window_ethereum P w = false ->
  ensure w = (Resolved false, w, [Alert "MetaMask is not installed"]) /\
  settled (verify isConnected w) = Resolved tt /\
  world (verify isConnected w) = w /\
  filter is_request (trace (verify isConnected w)) = [].
Proof.
  intros H. split; [exact (ensure_absent _ H) |].
  destruct isConnected.
  - rewrite verify_connected, (ensure_absent _ H). auto.
  - rewrite verify_not_connected. auto.
Qed.

(** C3.  When the first read of the chain id already gives the target,
    [ensureCeloNetwork] resolves true at once: the read is all it does, so
    no switch request and no add request is sent. *)
Theorem ensure_already_on_target w chain w1 :
  window_ethereum P w = true ->
  eth_chainId P w = (Resolved chain, w1) ->
  celo chain = true ->
  ensure w = (Resolved true, w1, [EthChainId (Resolved chain)]) /\
  switch_requests (trace (ensure w)) = 0%nat /\
  add_requests (trace (ensure w)) = 0%nat.
Proof.
  intros Heth Hread Hc.
  rewrite (ensure_present _ Heth), Hread, Hc. auto.
Qed.

(** The switch and add requests of a run that did not start on the
    target chain are those of [switch_or_add]. *)
Lemma ensure_requests_of_switch_or_add w chain w1 :
  window_ethereum P w = true ->
  eth_chainId P w = (Resolved chain, w1) ->
  celo chain = false ->
  let t := trace (ensure w) in
  let ts := trace (switch_or_add P celoSepolia w1) in
  add_requests t = add_requests ts /\
  switch_requests t = switch_requests ts /\
  switch_results t = switch_results ts.
Proof.
  intros Heth Hread Hc.
  rewrite (ensure_present _ Heth), Hread, Hc.
  destruct (switch_or_add P celoSepolia w1) as [[[u | e] w2] ts].
  - destruct (poll_counts maxAttempts w2) as (Hs & Ha & Hr).
    unfold add_requests, switch_requests, switch_results, trace in *.
    destruct (poll P celoSepolia maxAttempts w2) as [[[b | e] w3] tp];
      cbn [snd fst] in *; cbn [filter flat_map is_add is_switch app];
      rewrite ?filter_app, ?flat_map_app, Hs, Ha, Hr; cbn;
      rewrite ?app_nil_r; auto.
  - unfold add_requests, switch_requests, switch_results, trace.
    cbn. rewrite ?filter_app, ?flat_map_app. cbn. rewrite ?app_nil_r. auto.
Qed.


(** *** The claims about [handleVerify] *)

(** C8, as amended.  [handleVerify] sends the contract write only after
    [ensureCeloNetwork] resolved true, and the event just before the write
    is always a chain-id read made directly on the provider that resolved
    to the target chain.  When the provider handle is still there after
    [ensureCeloNetwork], that read is a new one, made on the world that
    [ensureCeloNetwork] left. *)
Theorem write_only_after_target_read isConnected w ev :
  In ev (trace (verify isConnected w)) ->
  is_write ev = true ->
  isConnected = true /\
  settled (ensure w) = Resolved true /\
  (window_ethereum P (world (ensure w)) = true ->
   provider_on_celo P celoSepolia (world (ensure w)) = true) /\
  exists before chain after,
    trace (verify isConnected w) =
      (before ++ EthChainId (Resolved chain) :: ev :: after)%list /\
    celo chain = true.
Proof.
  intros Hin Hw.
  destruct isConnected.
  2:{ rewrite verify_not_connected in Hin. cbn in Hin.
      destruct Hin as [<- | []]. discriminate. }
  assert (Hquiet : forall x, In x (trace (ensure w)) -> is_write x = false).
  { intros x Hx. pose proof (ensure_sends_no_write w) as Hall.
    rewrite Forall_forall in Hall. apply Hall in Hx.
    now apply negb_true_iff in Hx. }
  assert (Hfail : forall e x, In x (verify_failure_report e) -> is_write x = false).
  { intros e x [<- | [<- | []]]; reflexivity. }
  pose proof (ensure_last_event w) as Hlast.
  rewrite verify_connected in Hin |- *.
  unfold provider_on_celo.
  destruct (ensure w) as [[[[|] | e] w1] t];
    unfold settled, world, trace in *; cbn [fst snd] in *.
  - destruct Hlast as [(_ & t0 & c0 & Ht & Hc0) | [Hf _]]; [| discriminate].
    rewrite double_check_chain_run in Hin |- *.
    destruct (window_ethereum P w1).
    + destruct (eth_chainId P w1) as [[chain | e] w2].
      * destruct (celo chain) eqn:Hc; cbn [fst snd] in *.
        -- split; [reflexivity |]. split; [reflexivity |]. split; [auto |].
           apply in_app_or in Hin as [Hin | Hin];
             [apply Hquiet in Hin; congruence |].
           cbn [app] in Hin. destruct Hin as [<- | Hin]; [discriminate |].
           unfold write_report in Hin |- *.
           destruct Hin as [<- | Hin].
           ++ exists t, chain. eexists. split; [reflexivity | exact Hc].
           ++ exfalso.
              destruct (fst (writeContract P CONTRACT "verifyUser" w2)) as [h | e].
              ** destruct Hin as [<- | [<- | []]]; discriminate.
              ** apply Hfail in Hin. congruence.
        -- exfalso.
           apply in_app_or in Hin as [Hin | Hin];
             [apply Hquiet in Hin; congruence |].
           destruct Hin as [<- | [<- | []]]; discriminate.
      * exfalso. cbn [fst snd] in *.
        apply in_app_or in Hin as [Hin | Hin];
          [apply Hquiet in Hin; congruence |].
        cbn [app] in Hin. destruct Hin as [<- | Hin]; [discriminate |].
        apply Hfail in Hin. congruence.
    + cbn [fst snd app] in *.
      split; [reflexivity |]. split; [reflexivity |].
      split; [discriminate |].
      apply in_app_or in Hin as [Hin | Hin];
        [apply Hquiet in Hin; congruence |].
      unfold write_report in Hin |- *.
      destruct Hin as [<- | Hin].
      * exists t0, c0. eexists. split; [| exact Hc0].
        rewrite Ht, <- app_assoc. reflexivity.
      * exfalso.
        destruct (fst (writeContract P CONTRACT "verifyUser" w1)) as [h | e].
        -- destruct Hin as [<- | [<- | []]]; discriminate.
        -- apply Hfail in Hin. congruence.
  - exfalso. apply Hquiet in Hin. congruence.
  - exfalso. destruct Hlast as [[Hf _] | [Hf _]]; discriminate.
Qed.

(** C10.  When [ensureCeloNetwork] has resolved true and the provider
    handle is gone by the time of the final check, the check does nothing
    (no read, no alert) and the [verifyUser] write is sent next, on the
    world [ensureCeloNetwork] left. *)
Theorem write_unchecked_when_handle_gone w w1 t :
  ensure w = (Resolved true, w1, t) ->
  window_ethereum P w1 = false ->
  double_check_chain P celoSepolia w1 = (Resolved true, w1, []) /\
  verify true w =
    (Resolved tt, snd (writeContract P CONTRACT "verifyUser" w1),
     (t ++ write_report CONTRACT
             (fst (writeContract P CONTRACT "verifyUser" w1)))%list).
Proof.
  intros He Hgone.
  assert (Hd : double_check_chain P celoSepolia w1 = (Resolved true, w1, [])).
  { rewrite double_check_chain_run, Hgone. reflexivity. }
  split; [exact Hd |].
  rewrite verify_connected, He, Hd. reflexivity.
Qed.

End PageFacts.


(** ** The verification refresh *)

Section HooksFacts.

Import Hooks.

Lemma refetches_app l1 l2 :
  refetches (l1 ++ l2) = (refetches l1 ++ refetches l2)%list.
Proof. apply filter_app. Qed.

(** No refetch while the watcher does not report success. *)
Lemma no_refetch_without_success renders : forall prev,
  Forall (fun x => isVerifySuccess x = false) renders ->
  refetches (run_effect prev renders) = [].
Proof.
  induction renders as [| x rest IH]; intros prev Hall; [reflexivity |].
  inversion Hall as [| ? ? Hx Hrest]; subst.
  cbn [run_effect]. rewrite refetches_app, (IH _ Hrest).
  unfold refetch_effect. rewrite Hx. now destruct (deps_changed prev x).
Qed.

(** The effect does not run again while its dependencies stay the same. *)
Lemma no_refetch_while_unchanged confirmed after : forall p,
  Forall (fun x => isVerifySuccess x = isVerifySuccess p /\
                   refetchVerification x = refetchVerification p) confirmed ->
  Forall (fun x => isVerifySuccess x = false) after ->
  refetches (run_effect (Some p) (confirmed ++ after)) = [].
Proof.
  induction confirmed as [| x rest IH]; intros p Hsame Hafter.
  - now apply no_refetch_without_success.
  - inversion Hsame as [| ? ? [Hs Hf] Hrest]; subst.
    cbn [app run_effect]. rewrite refetches_app.
    assert (Hdeps : deps_changed (Some p) x = false).
    { unfold deps_changed, deps. cbn [fst snd]. rewrite Hs, Hf.
      now rewrite Bool.eqb_reflx, Nat.eqb_refl. }
    rewrite Hdeps. cbn [refetches filter app].
    apply IH; [| exact Hafter].
    eapply Forall_impl; [| exact Hrest].
    intros y [Hy1 Hy2]. split; congruence.
Qed.

(** The renders before the confirmation leave the effect with a previous
    render, if any, in which the watcher did not report success. *)
Lemma pending_then renders rest : forall prev,
  (forall p, prev = Some p -> isVerifySuccess p = false) ->
  Forall (fun x => isVerifySuccess x = false) renders ->
  exists prev',
    (forall p, prev' = Some p -> isVerifySuccess p = false) /\
    refetches (run_effect prev (renders ++ rest)) =
    refetches (run_effect prev' rest).
Proof.
  induction renders as [| x more IH]; intros prev Hprev Hall.
  - exists prev. auto.
  - inversion Hall as [| ? ? Hx Hmore]; subst.
    destruct (IH (Some x)) as (prev' & Hp' & Heq); [| exact Hmore |].
    { intros p [= <-]. exact Hx. }
    exists prev'. split; [exact Hp' |].
    cbn [app run_effect]. rewrite refetches_app, Heq.
    unfold refetch_effect. rewrite Hx. now destruct (deps_changed prev x).
Qed.

(** C9.  Over the renders of one verification (the watcher not yet
    successful, then successful from render [r] on, then not any more once
    the hash is cleared), the effect calls [refetchVerification] exactly
    once, in render [r], as long as [refetchVerification] stays the same
    function while the watcher reports success.  The refetched read has the
    connected address of render [r] as its argument, and the read is
    enabled exactly when an address is known and the wallet is connected. *)
Theorem refetch_once_when_confirmed pending r confirmed after :
  Forall (fun x => isVerifySuccess x = false) pending ->
  isVerifySuccess r = true ->
  Forall (fun x => isVerifySuccess x = true /\
                   refetchVerification x = refetchVerification r) confirmed ->
  Forall (fun x => isVerifySuccess x = false) after ->
  refetches (run_effect None (pending ++ r :: confirmed ++ after)) =
    [CallRefetch (refetchVerification r) (isVerified_args r)] /\
  (forall a, address r = Some a -> a <> "" -> isVerified_args r = Some [a]) /\
  (query_enabled r = true <->
   (exists a, address r = Some a /\ a <> "") /\ isConnected r = true).
Proof.
  intros Hpending Hr Hconfirmed Hafter.
  split; [| split].
  - destruct (pending_then pending (r :: confirmed ++ after) None)
      as (prev' & Hprev' & Heq); [discriminate | exact Hpending |].
    rewrite Heq. cbn [run_effect]. rewrite refetches_app.
    assert (Hfire : deps_changed prev' r = true).
    { destruct prev' as [p |]; [| reflexivity].
      unfold deps_changed, deps. cbn [fst snd].
      rewrite (Hprev' p eq_refl), Hr. reflexivity. }
    rewrite Hfire. unfold refetch_effect. rewrite Hr.
    rewrite no_refetch_while_unchanged; [reflexivity | | exact Hafter].
    eapply Forall_impl; [| exact Hconfirmed].
    intros y [Hy1 Hy2]. split; congruence.
  - intros a Ha Hne. unfold isVerified_args, truthy. rewrite Ha.
    destruct (String.eqb_spec a ""); [contradiction | reflexivity].
  - unfold query_enabled, truthy. rewrite andb_true_iff.
    destruct (address r) as [a |].
    + destruct (String.eqb_spec a "") as [-> | Hne]; cbn.
      * split; [intros [? _]; discriminate |].
        intros [(a & [= <-] & Hne) _]. contradiction.
      * split; [intros [_ Hc]; split; eauto | intros [_ Hc]; auto].
    + split; [intros [? _]; discriminate |].
      intros [(a & Ha & _) _]. discriminate.
Qed.

End HooksFacts.

(** ** Concrete runs *)

Local Abbreviation celo11 := celoSepolia_11142220.
Local Abbreviation ensure_on s := (ensureCeloNetwork (scripted s) celo11 0%nat).
Local Abbreviation verify_on s :=
  (handleVerify (scripted s) celo11 contract_0x5afe true 0%nat).

(** [parseInt(s, 16)] on what providers answer, and on strings it only
    reads in part or not at all. *)
Example parseInt16_examples :
  Js.parseInt16 "0xaa044c" = Some 11142220 /\
  Js.parseInt16 "0XAA044C" = Some 11142220 /\
  Js.parseInt16 "aa044c" = Some 11142220 /\
  Js.parseInt16 "  -0x1fz" = Some (-31) /\
  Js.parseInt16 "0x" = None /\
  Js.parseInt16 "" = None.
Proof. repeat split. Qed.

Example celo_param_chainId : chainId (celo_param celo11) = "0xaa044c".
Proof. reflexivity. Qed.

(** C2, the claim as stated fails.  Without a provider handle
    [ensureCeloNetwork] resolves false; it does not reject. *)
Lemma ensure_without_provider_resolves_false :
  settled (ensure_on no_wallet) = Resolved false /\
  ~ exists e, settled (ensure_on no_wallet) = Rejected e.
Proof.
  split; [reflexivity |]. intros [e H]. vm_compute in H. discriminate.
Qed.

Lemma provider_absent_no_request_witness :
  window_ethereum (scripted no_wallet) 0%nat = false /\
  (ensure_on no_wallet = (Resolved false, 0%nat, [Alert "MetaMask is not installed"]) /\
   settled (verify_on no_wallet) = Resolved tt /\
   world (verify_on no_wallet) = 0%nat /\
   filter is_request (trace (verify_on no_wallet)) = []).
Proof.
  split; [reflexivity |].
  exact (provider_absent_no_request (scripted no_wallet) celo11 contract_0x5afe
           0%nat true eq_refl).
Defined.

Lemma ensure_already_on_target_witness :
  window_ethereum (scripted wallet_on_celo) 0%nat = true /\
  eth_chainId (scripted wallet_on_celo) 0%nat = (Resolved "0xaa044c", 1%nat) /\
  is_celo celo11 "0xaa044c" = true /\
  (ensure_on wallet_on_celo =
     (Resolved true, 1%nat, [EthChainId (Resolved "0xaa044c")]) /\
   switch_requests (trace (ensure_on wallet_on_celo)) = 0%nat /\
   add_requests (trace (ensure_on wallet_on_celo)) = 0%nat).
Proof.
  do 3 (split; [reflexivity |]).
  exact (ensure_already_on_target (scripted wallet_on_celo) celo11
           0%nat "0xaa044c" 1%nat eq_refl eq_refl eq_refl).
Defined.


(** C8, the claim as stated fails.  [ensureCeloNetwork] reads the target
    chain and resolves true; then the provider handle is gone and the
    wallet is on chain 1.  [handleVerify] sends the write right after the
    events of [ensureCeloNetwork], with no read of its own, while a direct
    read of the provider at that moment gives another chain. *)
Lemma write_without_recheck :
  trace (verify_on handle_lost_after_ensure) =
    (trace (ensure_on handle_lost_after_ensure)
       ++ write_report contract_0x5afe (Resolved "0x7a"))%list /\
  write_requests (trace (verify_on handle_lost_after_ensure)) = 1%nat /\
  window_ethereum (scripted handle_lost_after_ensure)
    (world (ensure_on handle_lost_after_ensure)) = false /\
  provider_on_celo (scripted handle_lost_after_ensure) celo11
    (world (ensure_on handle_lost_after_ensure)) = false.
Proof. repeat split. Qed.

Lemma write_only_after_target_read_witness :
  let ev := WriteContract contract_0x5afe "verifyUser" (Resolved "0x7a") in
  In ev (trace (verify_on wallet_on_celo)) /\
  is_write ev = true /\
  (true = true /\
   settled (ensure_on wallet_on_celo) = Resolved true /\
   (window_ethereum (scripted wallet_on_celo)
      (world (ensure_on wallet_on_celo)) = true ->
    provider_on_celo (scripted wallet_on_celo) celo11
      (world (ensure_on wallet_on_celo)) = true) /\
   exists before chain after,
     trace (verify_on wallet_on_celo) =
       (before ++ EthChainId (Resolved chain) :: ev :: after)%list /\
     is_celo celo11 chain = true).
Proof.
  assert (Hin : In (WriteContract contract_0x5afe "verifyUser" (Resolved "0x7a"))
                   (trace (verify_on wallet_on_celo))).
  { vm_compute. right. right. left. reflexivity. }
  split; [exact Hin |]. split; [reflexivity |].
  exact (write_only_after_target_read (scripted wallet_on_celo) celo11
           contract_0x5afe true 0%nat _ Hin eq_refl).
Defined.

Lemma write_unchecked_when_handle_gone_witness :
  ensure_on handle_lost_after_ensure
    = (Resolved true, 1%nat, [EthChainId (Resolved "0xaa044c")]) /\
  window_ethereum (scripted handle_lost_after_ensure) 1%nat = false /\
  (double_check_chain (scripted handle_lost_after_ensure) celo11 1%nat
     = (Resolved true, 1%nat, []) /\
   verify_on handle_lost_after_ensure =
     (Resolved tt,
      snd (writeContract (scripted handle_lost_after_ensure)
             contract_0x5afe "verifyUser" 1%nat),
      ([EthChainId (Resolved "0xaa044c")]
         ++ write_report contract_0x5afe
              (fst (writeContract (scripted handle_lost_after_ensure)
                      contract_0x5afe "verifyUser" 1%nat)))%list)).
Proof.
  do 2 (split; [reflexivity |]).
  exact (write_unchecked_when_handle_gone (scripted handle_lost_after_ensure)
           celo11 contract_0x5afe 0%nat 1%nat
           [EthChainId (Resolved "0xaa044c")] eq_refl eq_refl).
Defined.

Lemma refetch_once_when_confirmed_witness :
  let pending := [render_0xabc false; render_0xabc false] in
  let r := render_0xabc true in
  let confirmed := [render_0xabc true] in
  let after := [render_0xabc false] in
  Forall (fun x => Hooks.isVerifySuccess x = false) pending /\
  Hooks.isVerifySuccess r = true /\
  Forall (fun x => Hooks.isVerifySuccess x = true /\
                   Hooks.refetchVerification x = Hooks.refetchVerification r)
         confirmed /\
  Forall (fun x => Hooks.isVerifySuccess x = false) after /\
  (Hooks.refetches (Hooks.run_effect None (pending ++ r :: confirmed ++ after)) =
     [Hooks.CallRefetch (Hooks.refetchVerification r) (Hooks.isVerified_args r)] /\
   (forall a, Hooks.address r = Some a -> a <> "" ->
              Hooks.isVerified_args r = Some [a]) /\
   (Hooks.query_enabled r = true <->
    (exists a, Hooks.address r = Some a /\ a <> "") /\
    Hooks.isConnected r = true)).
Proof.
  assert (H1 : Forall (fun x => Hooks.isVerifySuccess x = false)
                      [render_0xabc false; render_0xabc false])
    by (repeat constructor).
  assert (H2 : Forall (fun x => Hooks.isVerifySuccess x = true /\
                 Hooks.refetchVerification x
                 = Hooks.refetchVerification (render_0xabc true))
                      [render_0xabc true])
    by (repeat constructor).
  assert (H3 : Forall (fun x => Hooks.isVerifySuccess x = false)
                      [render_0xabc false])
    by (repeat constructor).
  split; [exact H1 |]. split; [reflexivity |].
  split; [exact H2 |]. split; [exact H3 |].
  exact (refetch_once_when_confirmed _ (render_0xabc true) _ _ H1 eq_refl H2 H3).
Defined.

(** * Further properties of the page *)

(** ** The chain id sent to the wallet and read back *)

(** Reading the digits that [toString(16)] wrote gives the number back. *)
Fixpoint hex_digits_of_pos (p : positive) (rest : string) (seen : bool) (acc : Z)
  {struct p} :
  Js.hex_digits (HexString.Raw.of_pos p rest) seen acc =
  Js.hex_digits rest true (acc * 16 ^ Z.of_nat (hex_length p) + Zpos p).
Proof.
  do 4 try destruct p as [p | p |];
    cbn [HexString.Raw.of_pos hex_length];
    try rewrite hex_digits_of_pos;
    cbn [Js.hex_digits];
    match goal with
    | |- context [Js.hex_digit ?c] =>
        let d := eval vm_compute in (Js.hex_digit c) in
        change (Js.hex_digit c) with d
    end;
    cbv iota; f_equal;
    first [ rewrite Nat2Z.inj_succ, Z.pow_succ_r by lia
          | change (Z.of_nat 1) with 1; rewrite Z.pow_1_r ];
    lia.
Qed.

(** X1.  The [chainId] that [addCeloNetwork] sends ("0x" followed by
    [celoSepolia.id.toString(16)]) is read back by [parseInt(_, 16)] as
    [celoSepolia.id] itself whenever the id is not negative, so the page
    recognises the chain it asked the wallet to add; for a negative id the
    string is "0x-..." and reads as NaN. *)
Theorem added_chainId_reads_back celoSepolia :
  Js.parseInt16 (chainId (celo_param celoSepolia)) =
    (if 0 <=? id celoSepolia then Some (id celoSepolia) else None) /\
  is_celo celoSepolia (chainId (celo_param celoSepolia)) = (0 <=? id celoSepolia).
Proof.
  assert (H : Js.parseInt16 (chainId (celo_param celoSepolia)) =
              (if 0 <=? id celoSepolia then Some (id celoSepolia) else None)).
  { unfold celo_param, Js.toString16. cbn [chainId].
    destruct (id celoSepolia) as [| p | p].
    - reflexivity.
    - change (Js.parseInt16 ("0x" ++ HexString.Raw.of_pos p ""))
        with (match Js.hex_digits (HexString.Raw.of_pos p "") false 0 with
              | Some v => Some (1 * v)
              | None => None
              end).
      rewrite hex_digits_of_pos. cbn [Js.hex_digits].
      change (0 <=? Z.pos p) with true. cbv iota. reflexivity.
    - reflexivity. }
  split; [exact H |].
  unfold is_celo. rewrite H.
  destruct (0 <=? id celoSepolia) eqn:Hs; [| reflexivity].
  cbn. apply Z.eqb_refl.
Qed.

(** ** Substrings of error messages *)

Lemma prefix_app (needle rest : string) : prefix needle (needle ++ rest) = true.
Proof.
  induction needle as [| c needle IH]; cbn.
  - now destruct rest.
  - destruct (ascii_dec c c) as [_ | Hne]; [exact IH | contradiction].
Qed.

(** [s.includes(needle)] holds as soon as [needle] occurs somewhere in
    [s]. *)
Lemma includes_app (before needle after : string) :
  Js.includes (before ++ needle ++ after) needle = true.
Proof.
  induction before as [| c before IH].
  - cbn [append]. destruct (needle ++ after) eqn:Hs; cbn [Js.includes];
      rewrite <- Hs, prefix_app; reflexivity.
  - cbn [append Js.includes]. rewrite IH.
    now destruct (prefix needle (String c (before ++ needle ++ after))).
Qed.

Section MorePageFacts.

Context {W : Type}.
Variable P : Provider W.
Variable celoSepolia : Chain.
Variable CONTRACT : string.

Local Abbreviation ensure := (ensureCeloNetwork P celoSepolia).
Local Abbreviation verify := (handleVerify P celoSepolia CONTRACT).
Local Abbreviation celo := (is_celo celoSepolia).
Local Abbreviation target := (id celoSepolia).
Local Abbreviation param := (celo_param celoSepolia).
Local Abbreviation on_celo := (about_celo celoSepolia CONTRACT).
Local Abbreviation count f t := (List.length (filter f t)).

(** *** [addCeloNetwork] *)

(** X2.  [addCeloNetwork] sends nothing but add-chain requests, at most
    one, and always with the description of [celoSepolia]: exactly one
    when the provider handle is there, and none when it is not, in which
    case it throws [Error('MetaMask is not installed')] and leaves the
    world as it was. *)
Theorem addCeloNetwork_sends_one_add w :
  let t := trace (addCeloNetwork P celoSepolia w) in
  filter is_request t = filter is_add t /\
  Forall on_celo t /\
  (if window_ethereum P w then add_requests t = 1%nat
   else addCeloNetwork P celoSepolia w =
        (Rejected (Js.new_Error "MetaMask is not installed"), w, [])).
Proof.
  rewrite addCeloNetwork_run.
  destruct (window_ethereum P w); [| cbn; auto].
  destruct (wallet_addEthereumChain P param w) as [[u | e] w1].
  - cbn. repeat split; repeat constructor.
  - destruct (network_already_exists e); cbn; repeat split; repeat constructor.
Qed.

(** X3.  An add failure is skipped as soon as its message contains
    "same RPC endpoint" or "existing network" anywhere, whatever its code,
    also when it has none. *)
Theorem addCeloNetwork_skips_on_message w e w1 before after :
  window_ethereum P w = true ->
  wallet_addEthereumChain P param w = (Rejected e, w1) ->
  Js.message e = Some (before ++ "same RPC endpoint" ++ after)
  \/ Js.message e = Some (before ++ "existing network" ++ after) ->
  addCeloNetwork P celoSepolia w =
    (Resolved tt, w1,
     [AddEthereumChain param (Rejected e);
      ConsoleLog "Network already exists in MetaMask, skipping add"]).
Proof.
  intros Heth Hadd Hmsg.
  rewrite addCeloNetwork_run, Heth, Hadd.
  assert (Hex : network_already_exists e = true).
  { unfold network_already_exists, Js.message_or_empty.
    destruct Hmsg as [-> | ->]; rewrite includes_app;
      rewrite ?orb_true_r; reflexivity. }
  rewrite Hex. reflexivity.
Qed.

(** *** What a run of [ensureCeloNetwork] contains *)

Lemma count_app f (t1 t2 : list Event) :
  count f (t1 ++ t2) = (count f t1 + count f t2)%nat.
Proof. now rewrite filter_app, length_app. Qed.

Lemma poll_profile n : forall w,
  let x := poll P celoSepolia n w in
  (count is_read (trace x) <= n)%nat /\
  (count is_timeout (trace x) <= n)%nat /\
  count is_write (trace x) = 0%nat /\
  alerts (trace x) =
    match settled x with Resolved false => 1%nat | _ => 0%nat end /\
  Forall on_celo (trace x).
Proof.
  induction n as [| n IH]; intros w.
  - rewrite poll_O. cbn. repeat split; auto. repeat constructor.
  - cbn zeta. rewrite poll_S.
    destruct (eth_chainId P (setTimeout P 500 w)) as [[chain | e] w2].
    + destruct (celo chain).
      * cbn. repeat split; try lia. repeat constructor.
      * specialize (IH w2). cbn zeta in IH.
        destruct (poll P celoSepolia n w2) as [[r w3] t].
        unfold settled, trace, alerts in *; cbn [fst snd] in *.
        destruct IH as (Hr & Ht & Hw & Ha & Hall).
        rewrite !count_app. cbn [poll_round filter is_read is_timeout is_write
                                 is_alert List.length].
        repeat split; try lia. repeat constructor; assumption.
    + cbn. repeat split; try lia. repeat constructor.
Qed.

Lemma switch_or_add_profile w :
  let t := trace (switch_or_add P celoSepolia w) in
  (1 <= switch_requests t <= 3)%nat /\
  (add_requests t <= 1)%nat /\
  count is_read t = 0%nat /\
  count is_timeout t = 0%nat /\
  count is_write t = 0%nat /\
  alerts t = 0%nat /\
  Forall on_celo t.
Proof.
  rewrite switch_or_add_run.
  unfold switch_requests, add_requests, alerts, trace.
  destruct (switchChain P target w) as [[u | e] w1].
  { cbn. repeat split; try lia. repeat constructor. }
  destruct (Js.strict_eq (Js.code_or_data_code e) 4902).
  2:{ cbn. repeat split; try lia. repeat constructor. }
  rewrite add_then_switch_run, addCeloNetwork_run. unfold switch_after_add.
  destruct (window_ethereum P w1).
  2:{ cbn. repeat split; try lia. repeat constructor. }
  destruct (wallet_addEthereumChain P param w1) as [[u | e1] w2];
    [| destruct (network_already_exists e1)];
    try (destruct (switchChain P target w2) as [[u2 | e2] w3];
         [| destruct (add_failed_network_exists e2)]);
    cbn; repeat split; try lia; repeat constructor.
Qed.

Lemma ensure_profile w :
  let x := ensure w in
  (switch_requests (trace x) <= 3)%nat /\
  (add_requests (trace x) <= 1)%nat /\
  (count is_read (trace x) <= 11)%nat /\
  (count is_timeout (trace x) <= 10)%nat /\
  count is_write (trace x) = 0%nat /\
  alerts (trace x) =
    match settled x with Resolved true => 0%nat | _ => 1%nat end /\
  Forall on_celo (trace x).
Proof.
  cbn zeta. destruct (window_ethereum P w) eqn:Heth.
  2:{ rewrite (ensure_absent _ _ _ Heth). cbn. repeat split; try lia.
      repeat constructor. }
  rewrite (ensure_present _ _ _ Heth).
  destruct (eth_chainId P w) as [[chain | e] w1].
  2:{ cbn. repeat split; try lia. repeat constructor. }
  destruct (celo chain).
  { cbn. repeat split; try lia. repeat constructor. }
  pose proof (switch_or_add_profile w1) as Hs. cbn zeta in Hs.
  destruct (switch_or_add P celoSepolia w1) as [[[u | e] w2] t].
  - pose proof (poll_profile maxAttempts w2) as Hp. cbn zeta in Hp.
    unfold maxAttempts in Hp.
    destruct (poll P celoSepolia 10 w2) as [[[b | e] w3] tp] eqn:Hpoll;
      fold maxAttempts in Hpoll; rewrite Hpoll;
      unfold switch_requests, add_requests, alerts, settled, trace in *;
      cbn [fst snd] in *;
      destruct Hs as (Hs1 & Hs2 & Hs3 & Hs4 & Hs5 & Hs6 & Hs7);
      destruct Hp as (Hp1 & Hp2 & Hp3 & Hp4 & Hp5);
      pose proof (poll_counts P celoSepolia 10 w2) as (Hc1 & Hc2 & _);
      fold maxAttempts in Hc1, Hc2; rewrite Hpoll in Hc1, Hc2;
      unfold trace in Hc1, Hc2; cbn [snd] in Hc1, Hc2;
      change (EthChainId (Resolved chain) :: ?l)
        with ([EthChainId (Resolved chain)] ++ l)%list;
      rewrite !count_app, ?Hc1, ?Hc2; cbn [filter is_switch is_add is_read
        is_timeout is_write is_alert failure_report List.length].
    + destruct b; repeat split; try lia;
        repeat (apply Forall_app; split); auto; repeat constructor.
    + repeat split; try lia;
        repeat (apply Forall_app; split); auto; repeat constructor.
  - unfold switch_requests, add_requests, alerts, settled, trace in *;
      cbn [fst snd] in *.
    destruct Hs as (Hs1 & Hs2 & Hs3 & Hs4 & Hs5 & Hs6 & Hs7).
    change (EthChainId (Resolved chain) :: ?l)
      with ([EthChainId (Resolved chain)] ++ l)%list.
    rewrite !count_app. cbn [filter is_switch is_add is_read
        is_timeout is_write is_alert failure_report List.length].
    repeat split; try lia;
      repeat (apply Forall_app; split); auto; repeat constructor.
Qed.

(** X4.  Whatever the wallet answers, one call of [ensureCeloNetwork]
    sends at most 3 switch requests, 1 add request and 11 chain-id reads,
    waits at most 10 times, and never writes to the contract; every switch
    goes to [celoSepolia.id], every add carries its description and every
    wait lasts 500 ms. *)
Theorem ensure_request_bounds w :
  let t := trace (ensure w) in
  (switch_requests t <= 3)%nat /\
  (add_requests t <= 1)%nat /\
  (count is_read t <= 11)%nat /\
  (count is_timeout t <= 10)%nat /\
  write_requests t = 0%nat /\
  Forall on_celo t.
Proof.
  pose proof (ensure_profile w) as H. cbn zeta in *. unfold write_requests. tauto.
Qed.

(** X5.  [ensureCeloNetwork] tells the user why it gives up: it shows
    exactly one alert when it resolves false and none when it resolves
    true. *)
Theorem ensure_alerts_exactly_when_false w :
  alerts (trace (ensure w)) =
  match settled (ensure w) with Resolved true => 0%nat | _ => 1%nat end.
Proof.
  pose proof (ensure_profile w) as H. cbn zeta in H. tauto.
Qed.

(** X6.  When the wallet accepts the first switch request, no add-chain
    request is sent and the switch is not repeated: the polling starts
    right after it. *)
Theorem accepted_switch_needs_no_add w chain w1 u w2 :
  window_ethereum P w = true ->
  eth_chainId P w = (Resolved chain, w1) ->
  celo chain = false ->
  switchChain P target w1 = (Resolved u, w2) ->
  add_requests (trace (ensure w)) = 0%nat /\
  switch_requests (trace (ensure w)) = 1%nat /\
  exists polling,
    trace (ensure w) =
      EthChainId (Resolved chain) :: SwitchChain target (Resolved u) :: polling /\
    filter is_switch polling = [] /\ filter is_add polling = [].
Proof.
  intros Heth Hread Hc Hsw.
  destruct (ensure_requests_of_switch_or_add P celoSepolia _ _ _ Heth Hread Hc)
    as (Ha & Hs & _).
  cbn zeta in Ha, Hs. rewrite Ha, Hs, switch_or_add_run, Hsw.
  split; [reflexivity |]. split; [reflexivity |].
  rewrite (ensure_present _ _ _ Heth), Hread, Hc, switch_or_add_run, Hsw.
  destruct (poll_counts P celoSepolia maxAttempts w2) as (Hc1 & Hc2 & _).
  destruct (poll P celoSepolia maxAttempts w2) as [[[b | e] w3] tp];
    unfold trace in *; cbn [snd app] in *; eexists; (split; [reflexivity |]).
  - auto.
  - rewrite !filter_app, Hc1, Hc2. auto.
Qed.

(** *** [handleVerify] *)

Lemma nothing_after_the_write (quiet : list Event) wr report :
  filter is_write quiet = [] ->
  filter is_request report = [] ->
  forall pre ev post,
    (quiet ++ wr :: report)%list = (pre ++ ev :: post)%list ->
    is_write ev = true ->
    filter is_request post = [].
Proof.
  intros Hq Hr. induction quiet as [| a quiet IH]; intros pre ev post Heq Hw.
  - destruct pre as [| x pre]; cbn in Heq.
    + now inversion Heq; subst.
    + exfalso. inversion Heq as [[Hx Hrest]].
      assert (Hin : In ev (filter is_request report)).
      { apply filter_In. split; [rewrite Hrest; apply in_elt |].
        now destruct ev. }
      rewrite Hr in Hin. contradiction.
  - cbn in Hq. destruct (is_write a) eqn:Ha; [discriminate |].
    destruct pre as [| x pre]; cbn in Heq.
    + inversion Heq; subst. congruence.
    + inversion Heq; subst. eapply IH; eauto.
Qed.

(** A run of [handleVerify] with the wallet connected: events without
    any write, then either nothing more (one alert was shown) or the write
    and its report (no alert was shown before). *)
Lemma verify_shape w :
  exists quiet report,
    trace (verify true w) = (quiet ++ report)%list /\
    settled (verify true w) = Resolved tt /\
    filter is_write quiet = [] /\
    Forall on_celo quiet /\
    ((report = [] /\ alerts quiet = 1%nat)
     \/ (exists r, report = write_report CONTRACT r /\ alerts quiet = 0%nat)).
Proof.
  pose proof (ensure_profile w) as Hp. cbn zeta in Hp.
  destruct Hp as (_ & _ & _ & _ & Hw0 & Hal & Hall).
  apply length_zero_iff_nil in Hw0.
  destruct (ensure_never_rejects P celoSepolia w) as [b Hb].
  rewrite verify_connected.
  destruct (ensure w) as [[r w1] t].
  unfold settled, trace, alerts in *; cbn [fst snd] in *. subst r.
  destruct b.
  2:{ exists t, []. rewrite app_nil_r. auto 10. }
  rewrite double_check_chain_run.
  destruct (window_ethereum P w1).
  2:{ exists t. eexists. cbn [fst snd app].
      repeat split; eauto. }
  destruct (eth_chainId P w1) as [[chain | e] w2].
  - destruct (celo chain).
    + exists (t ++ [EthChainId (Resolved chain)])%list. eexists.
      cbn [fst snd]. rewrite <- app_assoc.
      split; [reflexivity |]. split; [reflexivity |].
      rewrite filter_app, Hw0. split; [reflexivity |].
      split; [apply Forall_app; split; [auto | repeat constructor] |].
      right. eexists. split; [reflexivity |].
      rewrite count_app, Hal. reflexivity.
    + exists (t ++ [EthChainId (Resolved chain);
                    Alert "Please switch to Celo Sepolia network before verifying."])%list, [].
      cbn [fst snd]. rewrite app_nil_r.
      split; [reflexivity |]. split; [reflexivity |].
      rewrite filter_app, Hw0. split; [reflexivity |].
      split; [apply Forall_app; split; [auto | repeat constructor] |].
      left. split; [reflexivity |]. rewrite count_app, Hal. reflexivity.
  - exists (t ++ [EthChainId (Rejected e)] ++ verify_failure_report e)%list, [].
    cbn [fst snd]. rewrite app_nil_r.
    split; [reflexivity |]. split; [reflexivity |].
    rewrite filter_app, Hw0. split; [reflexivity |].
    split; [apply Forall_app; split; [auto | repeat constructor] |].
    left. split; [reflexivity |]. rewrite count_app, Hal. reflexivity.
Qed.

Lemma write_report_profile r :
  alerts (write_report CONTRACT r) = 1%nat /\
  write_requests (write_report CONTRACT r) = 1%nat /\
  Forall on_celo (write_report CONTRACT r) /\
  exists report,
    write_report CONTRACT r = WriteContract CONTRACT "verifyUser" r :: report /\
    filter is_request report = [].
Proof.
  unfold write_report, verify_failure_report.
  destruct r as [h | e]; cbn; repeat split; repeat constructor; eauto.
Qed.

(** X7.  [handleVerify] never rejects, whatever fails inside, and every
    run ends with exactly one alert to the user.  It sends at most one
    [verifyUser] write, to the configured contract, and requests nothing
    after it (a rejected write is not retried); when the wallet is not
    connected it requests nothing at all. *)
Theorem verify_resolves_with_one_alert isConnected w :
  let t := trace (verify isConnected w) in
  settled (verify isConnected w) = Resolved tt /\
  alerts t = 1%nat /\
  (write_requests t <= 1)%nat /\
  Forall on_celo t /\
  (forall pre ev post,
      t = (pre ++ ev :: post)%list -> is_write ev = true ->
      filter is_request post = []) /\
  filter is_request (trace (verify false w)) = [].
Proof.
  cbn zeta. destruct isConnected.
  2:{ rewrite verify_not_connected. cbn.
      repeat split; auto; try (repeat constructor).
      intros [| x [| y pre]] ev post Heq Hw; inversion Heq; subst; discriminate. }
  destruct (verify_shape w)
    as (quiet & report & Ht & Hres & Hq & Hall & Hcases).
  rewrite Ht. unfold alerts, write_requests in *.
  rewrite !count_app, Hq.
  split; [exact Hres |].
  destruct Hcases as [[-> Hal] | (r & -> & Hal)].
  - rewrite Hal. cbn. repeat split; try lia.
    + rewrite app_nil_r. exact Hall.
    + intros pre ev post Heq Hw. exfalso.
      assert (Hin : In ev (filter is_write (pre ++ ev :: post)))
        by (apply filter_In; split; [apply in_elt | exact Hw]).
      rewrite <- Heq, app_nil_r, Hq in Hin. contradiction.
  - destruct (write_report_profile r) as (Ha & Hw1 & Hall' & report & Hrep & Hnone).
    unfold alerts, write_requests in Ha, Hw1. rewrite Hal, Ha, Hw1.
    repeat split; try (cbn; lia).
    + apply Forall_app. split; assumption.
    + rewrite Hrep. intros pre ev post Heq Hw.
      exact (nothing_after_the_write quiet _ report Hq Hnone pre ev post Heq Hw).
Qed.

(** X8.  The final check does stop the write when it can be made: if the
    provider handle is still there after [ensureCeloNetwork] and a direct
    read of the chain id at that moment does not give the target (another
    chain, or a failed read), [handleVerify] sends no write. *)
Theorem final_check_blocks_write w w1 t :
  ensure w = (Resolved true, w1, t) ->
  window_ethereum P w1 = true ->
  provider_on_celo P celoSepolia w1 = false ->
  write_requests (trace (verify true w)) = 0%nat /\
  exists shown,
    trace (verify true w) =
      (t ++ EthChainId (fst (eth_chainId P w1)) :: shown)%list /\
    filter is_request shown = [].
Proof.
  intros He Heth Hoff.
  pose proof (ensure_profile w) as Hp. cbn zeta in Hp.
  destruct Hp as (_ & _ & _ & _ & Hw0 & _).
  rewrite He in Hw0. unfold trace in Hw0. cbn [snd] in Hw0.
  rewrite verify_connected, He, double_check_chain_run, Heth.
  unfold provider_on_celo in Hoff. unfold write_requests, trace.
  destruct (eth_chainId P w1) as [[chain | e] w2]; cbn [fst snd] in *.
  - rewrite Hoff. cbn [snd]. rewrite count_app, Hw0.
    split; [reflexivity |]. eexists. split; reflexivity.
  - cbn [snd]. rewrite count_app, Hw0.
    split; [reflexivity |]. eexists. split; reflexivity.
Qed.

End MorePageFacts.

(** ** The later [handleVerify] and the refresh effect *)

Section LaterFacts.

Import Hooks.

Context {W : Type}.
Variable P : Provider W.
Variable CONTRACT : string.

(** X9.  The later [handleVerify] never rejects and never reads or
    switches the chain: when the wallet is connected it sends the write and
    nothing else, and otherwise it does nothing.  An accepted write stores
    the transaction hash and leaves [verifying] set; a rejected one is
    logged, clears [verifying] and leaves the stored hash as it was. *)
Theorem later_handleVerify_outcome isConnected st w :
  let x := Later.handleVerify P CONTRACT isConnected (st, w) in
  let r := fst (writeContract P CONTRACT "verifyUser" w) in
  settled x = Resolved tt /\
  filter is_request (trace x) =
    (if isConnected then [WriteContract CONTRACT "verifyUser" r] else []) /\
  fst (world x) =
    (if isConnected then
       match r with
       | Resolved txHash =>
           {| Later.verifying := true; Later.verifyTxHash := Some txHash |}
       | Rejected _ =>
           {| Later.verifying := false;
              Later.verifyTxHash := Later.verifyTxHash st |}
       end
     else st) /\
  snd (world x) =
    (if isConnected then snd (writeContract P CONTRACT "verifyUser" w) else w).
Proof.
  unfold Later.handleVerify, try_catch, bind, Later.setVerifying,
    Later.setVerifyTxHash, Later.lift, write_verifyUser, request, emit, ret.
  destruct isConnected; cbn [negb fst snd]; [| cbn; auto].
  destruct (writeContract P CONTRACT "verifyUser" w) as [[h | e] w1];
    cbn; auto.
Qed.

(** The effect does nothing while the watcher does not report success. *)
Lemma effect_idle_without_success renders : forall prev,
  Forall (fun x => isVerifySuccess x = false) renders ->
  run_effect prev renders = [].
Proof.
  induction renders as [| x rest IH]; intros prev Hall; [reflexivity |].
  inversion Hall as [| ? ? Hx Hrest]; subst.
  cbn [run_effect]. rewrite (IH _ Hrest).
  unfold refetch_effect. rewrite Hx. now destruct (deps_changed prev x).
Qed.

Lemma effect_idle_while_unchanged confirmed after : forall p,
  Forall (fun x => isVerifySuccess x = isVerifySuccess p /\
                   refetchVerification x = refetchVerification p) confirmed ->
  Forall (fun x => isVerifySuccess x = false) after ->
  run_effect (Some p) (confirmed ++ after) = [].
Proof.
  induction confirmed as [| x rest IH]; intros p Hsame Hafter.
  - now apply effect_idle_without_success.
  - inversion Hsame as [| ? ? [Hs Hf] Hrest]; subst.
    cbn [app run_effect].
    assert (Hdeps : deps_changed (Some p) x = false).
    { unfold deps_changed, deps. cbn [fst snd]. rewrite Hs, Hf.
      now rewrite Bool.eqb_reflx, Nat.eqb_refl. }
    rewrite Hdeps. cbn [app].
    apply IH; [| exact Hafter].
    eapply Forall_impl; [| exact Hrest].
    intros y [Hy1 Hy2]. split; congruence.
Qed.

Lemma effect_after_pending renders rest : forall prev,
  (forall p, prev = Some p -> isVerifySuccess p = false) ->
  Forall (fun x => isVerifySuccess x = false) renders ->
  exists prev',
    (forall p, prev' = Some p -> isVerifySuccess p = false) /\
    run_effect prev (renders ++ rest) = run_effect prev' rest.
Proof.
  induction renders as [| x more IH]; intros prev Hprev Hall.
  - exists prev. auto.
  - inversion Hall as [| ? ? Hx Hmore]; subst.
    destruct (IH (Some x)) as (prev' & Hp' & Heq); [| exact Hmore |].
    { intros p [= <-]. exact Hx. }
    exists prev'. split; [exact Hp' |].
    cbn [app run_effect]. rewrite Heq.
    unfold refetch_effect. rewrite Hx. now destruct (deps_changed prev x).
Qed.

(** X10.  Once the receipt watcher reports success, the effect brings the
    component back to its initial state, whatever state [handleVerify]
    left: [verifying] is cleared and the stored hash is dropped, so the
    verify button is enabled again when no receipt is awaited. *)
Theorem confirmation_resets_the_component pending r confirmed after st :
  Forall (fun x => isVerifySuccess x = false) pending ->
  isVerifySuccess r = true ->
  Forall (fun x => isVerifySuccess x = true /\
                   refetchVerification x = refetchVerification r) confirmed ->
  Forall (fun x => isVerifySuccess x = false) after ->
  let st' :=
    Later.apply_actions
      (run_effect None (pending ++ r :: confirmed ++ after)) st in
  st' = Later.initial /\ Later.verify_disabled st' false = false.
Proof.
  intros Hpending Hr Hconfirmed Hafter.
  destruct (effect_after_pending pending (r :: confirmed ++ after) None)
    as (prev' & Hprev' & Heq); [discriminate | exact Hpending |].
  cbn zeta. rewrite Heq. cbn [run_effect].
  assert (Hfire : deps_changed prev' r = true).
  { destruct prev' as [p |]; [| reflexivity].
    unfold deps_changed, deps. cbn [fst snd].
    rewrite (Hprev' p eq_refl), Hr. reflexivity. }
  rewrite Hfire, effect_idle_while_unchanged, app_nil_r; [| | exact Hafter].
  - unfold refetch_effect. rewrite Hr. cbn. auto.
  - eapply Forall_impl; [| exact Hconfirmed].
    intros y [Hy1 Hy2]. split; congruence.
Qed.

(** X11.  Nothing but a reported success clears [verifying]: as long as
    the watcher does not report success (the receipt is awaited, or the
    transaction failed), the effect leaves the component state alone, so
    after an accepted write the verify button stays disabled. *)
Theorem verifying_stays_without_success renders prev st isVerifyingTx :
  Forall (fun x => isVerifySuccess x = false) renders ->
  Later.verifying st = true ->
  Later.apply_actions (run_effect prev renders) st = st /\
  Later.verify_disabled
    (Later.apply_actions (run_effect prev renders) st) isVerifyingTx = true.
Proof.
  intros Hall Hv. rewrite (effect_idle_without_success _ _ Hall).
  cbn. split; [reflexivity |]. unfold Later.verify_disabled. now rewrite Hv.
Qed.

End LaterFacts.

(** ** The effect that keeps the wallet on the chain *)

Section AutoSwitchFacts.

Import AutoSwitch.

Variable celoSepolia : Chain.

(** X12.  The effect only ever asks for [celoSepolia.id], and only in
    renders where the wallet is connected and on another chain: with the
    wallet disconnected or already on the target it asks for nothing. *)
Theorem autoswitch_only_when_needed prev renders :
  Forall (fun c => c = id celoSepolia) (run_effect celoSepolia prev renders) /\
  (List.length (run_effect celoSepolia prev renders)
   <= List.length (filter (needs_switch celoSepolia) renders))%nat.
Proof.
  revert prev. induction renders as [| r rest IH]; intros prev.
  - split; [constructor | reflexivity].
  - destruct (IH (Some r)) as [Hall Hlen].
    cbn [run_effect filter]. unfold force_switch.
    destruct (deps_changed prev r), (needs_switch celoSepolia r);
      cbn [app List.length];
      split; auto; lia.
Qed.

(** X13.  The switch is not asked for again in every render: when the
    dependencies change to a connected wallet on another chain and then
    stay the same, the effect asks for the switch exactly once. *)
Theorem autoswitch_once_while_unchanged prev r more :
  deps_changed prev r = true ->
  isConnected r = true ->
  chainId r <> id celoSepolia ->
  Forall (fun x => isConnected x = isConnected r /\ chainId x = chainId r /\
                   switchChain_fn x = switchChain_fn r) more ->
  run_effect celoSepolia prev (r :: more) = [id celoSepolia].
Proof.
  intros Hch Hc Hne Hsame.
  cbn [run_effect]. rewrite Hch. unfold force_switch at 1, needs_switch.
  rewrite Hc. apply Z.eqb_neq in Hne. rewrite Hne. cbn [andb negb app].
  f_equal. clear Hch Hc Hne.
  revert r Hsame. induction more as [| x rest IH]; intros r Hsame; [reflexivity |].
  inversion Hsame as [| ? ? (H1 & H2 & H3) Hrest]; subst.
  cbn [run_effect].
  assert (Hd : deps_changed (Some r) x = false).
  { unfold deps_changed. rewrite H1, H2, H3.
    now rewrite Bool.eqb_reflx, Z.eqb_refl, Nat.eqb_refl. }
  rewrite Hd. cbn [app]. apply IH.
  eapply Forall_impl; [| exact Hrest].
  intros y (Hy1 & Hy2 & Hy3). repeat split; congruence.
Qed.

End AutoSwitchFacts.

(** ** Geolocation *)

Section GeoFacts.

Import Geo.

Variable number : Type.
Variable geohash_encode : number -> number -> nat -> string.

Lemma or_default_not_empty msg fallback :
  fallback <> "" -> or_default msg fallback <> "".
Proof.
  intros Hf. unfold or_default.
  destruct (String.eqb_spec msg ""); assumption.
Qed.


(** X15.  The click handler of "Send location" agrees with the button:
    it calls [sendLocationToChain] exactly when the button is enabled, and
    then once, with the coordinates of the current state and their
    5-character geohash, which is not empty; in the [idle], [loading] and
    [error] states it sends nothing. *)
Theorem send_only_when_enabled (st : GeoState number) :
  (onClick_send number geohash_encode st = [] <->
   send_disabled number geohash_encode st = true) /\
  (forall x, In x (onClick_send number geohash_encode st) ->
     exists coords,
       st = success number coords /\
       onClick_send number geohash_encode st = [x] /\
       x = {| sent_lat := lat number coords; sent_lon := lon number coords;
              sent_geohash5 :=
                geohash_encode (lat number coords) (lon number coords) 5 |} /\
       sent_geohash5 number x <> "").
Proof.
  unfold onClick_send, send_disabled, geohash5, truthy, is_success.
  destruct st as [| | coords | m]; cbn [negb orb];
    try (split; [split; reflexivity | intros x []]).
  destruct (String.eqb_spec (geohash_encode (lat number coords) (lon number coords) 5) "")
    as [He | Hne]; cbn [negb].
  - split; [split; reflexivity | intros x []].
  - split; [split; discriminate |].
    intros x [<- | []]. exists coords. repeat split. exact Hne.
Qed.

End GeoFacts.

(** ** Failures that end the negotiation *)

Section TerminalFailures.

Context {W : Type}.
Variable P : Provider W.
Variable celoSepolia : Chain.
Variable CONTRACT : string.

(** X16.  A failed first read of the chain id is not retried and nothing
    else is asked of the wallet: [ensureCeloNetwork] logs the error, shows
    the failure alert and resolves false, and [handleVerify] stops
    there. *)
Theorem failed_read_is_terminal w e w1 :
  window_ethereum P w = true ->
  eth_chainId P w = (Rejected e, w1) ->
  ensureCeloNetwork P celoSepolia w =
    (Resolved false, w1, EthChainId (Rejected e) :: failure_report e) /\
  handleVerify P celoSepolia CONTRACT true w =
    (Resolved tt, w1, EthChainId (Rejected e) :: failure_report e).
Proof.
  intros Heth Hread.
  assert (He : ensureCeloNetwork P celoSepolia w =
               (Resolved false, w1, EthChainId (Rejected e) :: failure_report e)).
  { rewrite (ensure_present _ _ _ Heth), Hread. reflexivity. }
  split; [exact He |]. rewrite verify_connected, He. reflexivity.
Qed.

(** X18.  The first revision of [handleVerify] never rejects and always
    ends with exactly one alert; it asks for nothing but the [verifyUser]
    write, which it sends exactly when the wallet is connected, without
    looking at the chain. *)
Theorem first_handleVerify_outcome isConnected w :
  let x := First.handleVerify P CONTRACT isConnected w in
  settled x = Resolved tt /\
  alerts (trace x) = 1%nat /\
  filter is_request (trace x) =
    (if isConnected
     then [WriteContract CONTRACT "verifyUser"
             (fst (writeContract P CONTRACT "verifyUser" w))]
     else []) /\
  world x =
    (if isConnected then snd (writeContract P CONTRACT "verifyUser" w) else w).
Proof.
  unfold First.handleVerify, try_catch, bind, write_verifyUser, request, emit.
  destruct isConnected; cbn [negb]; [| cbn; auto].
  destruct (writeContract P CONTRACT "verifyUser" w) as [[h | e] w1]; cbn; auto.
Qed.

End TerminalFailures.

(** ** More concrete runs *)

Lemma addCeloNetwork_skips_on_message_witness :
  let P := scripted add_fails_existing_network in
  let e := {| Js.code := None; Js.data_code := None;
              Js.message :=
                Some "May not specify default MetaMask chain: existing network found." |} in
  window_ethereum P 0%nat = true /\
  wallet_addEthereumChain P (celo_param celo11) 0%nat = (Rejected e, 1%nat) /\
  (Js.message e =
     Some ("May not specify default MetaMask chain: " ++ "same RPC endpoint" ++ " found.")
   \/ Js.message e =
     Some ("May not specify default MetaMask chain: " ++ "existing network" ++ " found.")) /\
  addCeloNetwork P celo11 0%nat =
    (Resolved tt, 1%nat,
     [AddEthereumChain (celo_param celo11) (Rejected e);
      ConsoleLog "Network already exists in MetaMask, skipping add"]).
Proof.
  cbn zeta.
  split; [reflexivity |]. split; [reflexivity |]. split; [right; reflexivity |].
  exact (addCeloNetwork_skips_on_message (scripted add_fails_existing_network)
           celo11 0%nat _ 1%nat "May not specify default MetaMask chain: "
           " found." eq_refl eq_refl (or_intror eq_refl)).
Defined.

Lemma accepted_switch_needs_no_add_witness :
  let P := scripted switch_never_applied in
  window_ethereum P 0%nat = true /\
  eth_chainId P 0%nat = (Resolved "0x1", 1%nat) /\
  is_celo celo11 "0x1" = false /\
  switchChain P (id celo11) 1%nat = (Resolved tt, 2%nat) /\
  (add_requests (trace (ensure_on switch_never_applied)) = 0%nat /\
   switch_requests (trace (ensure_on switch_never_applied)) = 1%nat /\
   exists polling,
     trace (ensure_on switch_never_applied) =
       EthChainId (Resolved "0x1") :: SwitchChain (id celo11) (Resolved tt)
         :: polling /\
     filter is_switch polling = [] /\ filter is_add polling = []).
Proof.
  cbn zeta. do 4 (split; [reflexivity |]).
  exact (accepted_switch_needs_no_add (scripted switch_never_applied) celo11
           0%nat "0x1" 1%nat tt 2%nat eq_refl eq_refl eq_refl eq_refl).
Defined.

Lemma final_check_blocks_write_witness :
  let P := scripted chain_changed_before_submit in
  ensure_on chain_changed_before_submit =
    (Resolved true, 1%nat, [EthChainId (Resolved "0xaa044c")]) /\
  window_ethereum P 1%nat = true /\
  provider_on_celo P celo11 1%nat = false /\
  (write_requests (trace (verify_on chain_changed_before_submit)) = 0%nat /\
   exists shown,
     trace (verify_on chain_changed_before_submit) =
       ([EthChainId (Resolved "0xaa044c")]
          ++ EthChainId (fst (eth_chainId P 1%nat)) :: shown)%list /\
     filter is_request shown = []).
Proof.
  cbn zeta. do 3 (split; [reflexivity |]).
  exact (final_check_blocks_write (scripted chain_changed_before_submit) celo11
           contract_0x5afe 0%nat 1%nat [EthChainId (Resolved "0xaa044c")]
           eq_refl eq_refl eq_refl).
Defined.

Lemma confirmation_resets_the_component_witness :
  let pending := [render_0xabc false; render_0xabc false] in
  let r := render_0xabc true in
  let confirmed := [render_0xabc true] in
  let after := [render_0xabc false] in
  let st := {| Later.verifying := true; Later.verifyTxHash := Some "0x7a" |} in
  Forall (fun x => Hooks.isVerifySuccess x = false) pending /\
  Hooks.isVerifySuccess r = true /\
  Forall (fun x => Hooks.isVerifySuccess x = true /\
                   Hooks.refetchVerification x = Hooks.refetchVerification r)
         confirmed /\
  Forall (fun x => Hooks.isVerifySuccess x = false) after /\
  (let st' :=
     Later.apply_actions
       (Hooks.run_effect None (pending ++ r :: confirmed ++ after)) st in
   st' = Later.initial /\ Later.verify_disabled st' false = false).
Proof.
  assert (H1 : Forall (fun x => Hooks.isVerifySuccess x = false)
                      [render_0xabc false; render_0xabc false])
    by (repeat constructor).
  assert (H2 : Forall (fun x => Hooks.isVerifySuccess x = true /\
                 Hooks.refetchVerification x
                 = Hooks.refetchVerification (render_0xabc true))
                      [render_0xabc true])
    by (repeat constructor).
  assert (H3 : Forall (fun x => Hooks.isVerifySuccess x = false)
                      [render_0xabc false])
    by (repeat constructor).
  cbn zeta.
  split; [exact H1 |]. split; [reflexivity |].
  split; [exact H2 |]. split; [exact H3 |].
  exact (confirmation_resets_the_component _ (render_0xabc true) _ _
           {| Later.verifying := true; Later.verifyTxHash := Some "0x7a" |}
           H1 eq_refl H2 H3).
Defined.

Lemma verifying_stays_without_success_witness :
  let renders := [render_0xabc false; render_0xabc false] in
  let st := {| Later.verifying := true; Later.verifyTxHash := Some "0x7a" |} in
  Forall (fun x => Hooks.isVerifySuccess x = false) renders /\
  Later.verifying st = true /\
  (Later.apply_actions (Hooks.run_effect None renders) st = st /\
   Later.verify_disabled
     (Later.apply_actions (Hooks.run_effect None renders) st) false = true).
Proof.
  assert (H1 : Forall (fun x => Hooks.isVerifySuccess x = false)
                      [render_0xabc false; render_0xabc false])
    by (repeat constructor).
  cbn zeta. split; [exact H1 |]. split; [reflexivity |].
  exact (verifying_stays_without_success _ None
           {| Later.verifying := true; Later.verifyTxHash := Some "0x7a" |}
           false H1 eq_refl).
Defined.

Lemma autoswitch_once_while_unchanged_witness :
  let r := render_on_chain_1 in
  let more := [render_on_chain_1; render_on_chain_1] in
  AutoSwitch.deps_changed None r = true /\
  AutoSwitch.isConnected r = true /\
  AutoSwitch.chainId r <> id celo11 /\
  Forall (fun x => AutoSwitch.isConnected x = AutoSwitch.isConnected r /\
                   AutoSwitch.chainId x = AutoSwitch.chainId r /\
                   AutoSwitch.switchChain_fn x = AutoSwitch.switchChain_fn r)
         more /\
  AutoSwitch.run_effect celo11 None (r :: more) = [id celo11].
Proof.
  assert (Hne : AutoSwitch.chainId render_on_chain_1 <> id celo11)
    by (cbn; lia).
  assert (Hsame : Forall (fun x =>
            AutoSwitch.isConnected x = AutoSwitch.isConnected render_on_chain_1 /\
            AutoSwitch.chainId x = AutoSwitch.chainId render_on_chain_1 /\
            AutoSwitch.switchChain_fn x = AutoSwitch.switchChain_fn render_on_chain_1)
                         [render_on_chain_1; render_on_chain_1])
    by (repeat constructor).
  cbn zeta. split; [reflexivity |]. split; [reflexivity |].
  split; [exact Hne |]. split; [exact Hsame |].
  exact (autoswitch_once_while_unchanged celo11 None render_on_chain_1 _
           eq_refl eq_refl Hne Hsame).
Defined.

Lemma failed_read_is_terminal_witness :
  let P := scripted read_fails in
  window_ethereum P 0%nat = true /\
  eth_chainId P 0%nat = (Rejected internal_error, 1%nat) /\
  (ensure_on read_fails =
     (Resolved false, 1%nat,
      EthChainId (Rejected internal_error) :: failure_report internal_error) /\
   verify_on read_fails =
     (Resolved tt, 1%nat,
      EthChainId (Rejected internal_error) :: failure_report internal_error)).
Proof.
  cbn zeta. do 2 (split; [reflexivity |]).
  exact (failed_read_is_terminal (scripted read_fails) celo11 contract_0x5afe
           0%nat internal_error 1%nat eq_refl eq_refl).
Defined.

(** * The page behind wagmi's [switchChain] *)

Section BehindMutate.

Context {W : Type}.
Variable P : Provider W.
Variable celoSepolia : Chain.
Variable CONTRACT : string.

Local Abbreviation ensure := (ensureCeloNetwork P celoSepolia).
Local Abbreviation verify := (handleVerify P celoSepolia CONTRACT).
Local Abbreviation celo := (is_celo celoSepolia).
Local Abbreviation target := (id celoSepolia).
Local Abbreviation count f t := (List.length (filter f t)).
Local Abbreviation timed_out_alert :=
  (Alert "Please approve the network switch in your wallet and try again.").

(** With a [switchChain] that does not reject, the fallback is never
    entered: the switch stage is the one request. *)
Lemma switch_or_add_behind_mutate w :
  switch_never_rejects P ->
  switch_or_add P celoSepolia w =
    (Resolved tt, snd (switchChain P target w),
     [SwitchChain target (Resolved tt)]).
Proof.
  intros Hmut. rewrite switch_or_add_run. specialize (Hmut target w).
  destruct (switchChain P target w) as [r w1]. cbn [fst snd] in *.
  subst r. reflexivity.
Qed.

(** X17.  Behind wagmi's [switchChain], which never rejects, the page
    never asks the wallet to add the chain: no run of [ensureCeloNetwork]
    sends an add-chain request, and none sends more than one switch
    request. *)
Theorem add_fallback_is_never_entered w :
  switch_never_rejects P ->
  add_requests (trace (ensure w)) = 0%nat /\
  (switch_requests (trace (ensure w)) <= 1)%nat.
Proof.
  intros Hmut.
  destruct (window_ethereum P w) eqn:Heth.
  2:{ rewrite (ensure_absent _ _ _ Heth). cbn. lia. }
  destruct (eth_chainId P w) as [[chain | e] w1] eqn:Hread.
  2:{ rewrite (ensure_present _ _ _ Heth), Hread. cbn. lia. }
  destruct (celo chain) eqn:Hc.
  { rewrite (ensure_present _ _ _ Heth), Hread, Hc. cbn. lia. }
  destruct (ensure_requests_of_switch_or_add P celoSepolia _ _ _ Heth Hread Hc)
    as (Ha & Hs & _).
  cbn zeta in Ha, Hs.
  rewrite Ha, Hs, (switch_or_add_behind_mutate _ Hmut). cbn. lia.
Qed.

(** The polling of a wallet that never gets to the target chain. *)
Lemma poll_off_target n : forall w,
  (forall w', exists chain w'',
      eth_chainId P w' = (Resolved chain, w'') /\ celo chain = false) ->
  settled (poll P celoSepolia n w) = Resolved false /\
  count is_read (trace (poll P celoSepolia n w)) = n /\
  count is_timeout (trace (poll P celoSepolia n w)) = n /\
  exists t, trace (poll P celoSepolia n w) = (t ++ [timed_out_alert])%list.
Proof.
  induction n as [| n IH]; intros w Hoff.
  - rewrite poll_O. cbn. repeat split. now exists [].
  - rewrite poll_S.
    destruct (Hoff (setTimeout P 500 w)) as (chain & w2 & Hread & Hc).
    rewrite Hread, Hc.
    destruct (IH w2 Hoff) as (Hr & Hreads & Htimeouts & t & Ht).
    destruct (poll P celoSepolia n w2) as [[r w3] tp].
    unfold settled, trace in *; cbn [fst snd] in *.
    split; [exact Hr |].
    rewrite !filter_app, !length_app, Hreads, Htimeouts. cbn.
    repeat split. exists (poll_round (Resolved chain) ++ t)%list.
    rewrite Ht. reflexivity.
Qed.

(** X19.  A switch that the wallet does not carry out (the user declines
    it, or the chain is unknown) is not noticed as such: behind wagmi's
    [switchChain], when the wallet stays off the target chain,
    [ensureCeloNetwork] sends the one switch request and no add request,
    polls all 10 times, shows the "please approve" alert and resolves
    false, and [handleVerify] stops there. *)
Theorem off_target_wallet_times_out w :
  switch_never_rejects P ->
  window_ethereum P w = true ->
  (forall w', exists chain w'',
      eth_chainId P w' = (Resolved chain, w'') /\ celo chain = false) ->
  let t := trace (ensure w) in
  settled (ensure w) = Resolved false /\
  switch_requests t = 1%nat /\
  add_requests t = 0%nat /\
  count is_read t = 11%nat /\
  count is_timeout t = 10%nat /\
  (exists t', t = (t' ++ [timed_out_alert])%list) /\
  handleVerify P celoSepolia CONTRACT true w = (Resolved tt, world (ensure w), t).
Proof.
  intros Hmut Heth Hoff.
  destruct (Hoff w) as (chain & w1 & Hread & Hc).
  assert (He : exists w3 tp,
    ensure w =
      (Resolved false, w3,
       (EthChainId (Resolved chain) :: SwitchChain target (Resolved tt) :: tp)%list)
    /\ count is_read tp = 10%nat /\ count is_timeout tp = 10%nat
    /\ filter is_switch tp = [] /\ filter is_add tp = []
    /\ exists t', tp = (t' ++ [timed_out_alert])%list).
  { rewrite (ensure_present _ _ _ Heth), Hread, Hc.
    rewrite (switch_or_add_behind_mutate _ Hmut).
    destruct (poll_off_target maxAttempts (snd (switchChain P target w1)) Hoff)
      as (Hr & Hreads & Htimeouts & t' & Ht').
    destruct (poll_counts P celoSepolia maxAttempts (snd (switchChain P target w1)))
      as (Hs & Ha & _).
    destruct (poll P celoSepolia maxAttempts (snd (switchChain P target w1)))
      as [[r w3] tp].
    unfold settled, trace in *; cbn [fst snd] in *. subst r.
    exists w3, tp. cbn [app]. repeat split; auto. now exists t'. }
  destruct He as (w3 & tp & He & Hreads & Htimeouts & Hs & Ha & t' & Ht').
  cbn zeta. rewrite verify_connected, He.
  unfold settled, world, trace, switch_requests, add_requests; cbn [fst snd].
  cbn [filter is_switch is_add is_read is_timeout List.length].
  rewrite Hs, Ha, Hreads, Htimeouts.
  repeat split.
  exists (EthChainId (Resolved chain) :: SwitchChain target (Resolved tt) :: t')%list.
  rewrite Ht'. reflexivity.
Qed.

End BehindMutate.

(** ** Which add failures [addCeloNetwork] skips *)

Lemma prefix_inv (needle s : string) :
  prefix needle s = true -> exists rest, s = needle ++ rest.
Proof.
  revert s. induction needle as [| c needle IH]; intros s H.
  - exists s. reflexivity.
  - destruct s as [| c' s]; cbn in H; [discriminate |].
    destruct (ascii_dec c c') as [<- | _]; [| discriminate].
    destruct (IH s H) as [rest ->]. exists rest. reflexivity.
Qed.

Lemma includes_contains (s needle : string) :
  Js.includes s needle = true <-> contains s needle.
Proof.
  split.
  - induction s as [| c s IH]; cbn [Js.includes]; intros H.
    + destruct (prefix needle "") eqn:Hp; [| discriminate].
      destruct (prefix_inv _ _ Hp) as [rest Hrest].
      exists "", rest. exact Hrest.
    + destruct (prefix needle (String c s)) eqn:Hp.
      * destruct (prefix_inv _ _ Hp) as [rest Hrest].
        exists "", rest. exact Hrest.
      * destruct (IH H) as (before & after & ->).
        exists (String c before), after. reflexivity.
  - intros (before & after & ->). apply includes_app.
Qed.

Lemma has_code_iff e c :
  Js.strict_eq (Js.code_or_data_code e) c = true <-> has_code e c.
Proof.
  rewrite strict_eq_true. unfold Js.code_or_data_code, has_code.
  destruct (Js.code e) as [k |].
  - destruct (Z.eqb_spec k 0) as [-> | Hk].
    + split.
      * intros H. right. auto.
      * intros [[H1 H2] | [_ H]]; [congruence | exact H].
    + split.
      * intros [= <-]. left. auto.
      * intros [[H _] | [[H | H] _]]; congruence.
  - split.
    + intros H. right. auto.
    + intros [[H _] | [_ H]]; [discriminate | exact H].
Qed.

Lemma message_includes_iff e needle :
  needle <> "" ->
  Js.includes (Js.message_or_empty e) needle = true <-> message_contains e needle.
Proof.
  intros Hne. unfold Js.message_or_empty, message_contains.
  rewrite includes_contains.
  destruct (Js.message e) as [m |].
  - split; [intros H; eauto | intros (m' & [= <-] & H); exact H].
  - split.
    + intros (before & after & H). exfalso.
      destruct before; [destruct needle; [contradiction | discriminate] | discriminate].
    + intros (m & Hm & _). discriminate.
Qed.

Section AddFailures.

Context {W : Type}.
Variable P : Provider W.
Variable celoSepolia : Chain.

(** C5, as amended.  When the add request fails with [e],
    [addCeloNetwork] skips the failure (logs it and returns normally)
    exactly when [e] carries the code 4902 or -32603, in [code] or else in
    [data.code], whatever its message, or when its message contains
    "same RPC endpoint" or "existing network", whatever its code; every
    other failure is thrown again, unchanged. *)
Theorem addCeloNetwork_skips_by_code_or_message w e w1 :
  window_ethereum P w = true ->
  wallet_addEthereumChain P (celo_param celoSepolia) w = (Rejected e, w1) ->
  let skipped :=
    has_code e 4902 \/ has_code e (-32603)
    \/ message_contains e "same RPC endpoint"
    \/ message_contains e "existing network" in
  (skipped ->
   addCeloNetwork P celoSepolia w =
     (Resolved tt, w1,
      [AddEthereumChain (celo_param celoSepolia) (Rejected e);
       ConsoleLog "Network already exists in MetaMask, skipping add"])) /\
  (~ skipped ->
   addCeloNetwork P celoSepolia w =
     (Rejected e, w1,
      [AddEthereumChain (celo_param celoSepolia) (Rejected e)])).
Proof.
  intros Heth Hadd skipped.
  assert (Hiff : network_already_exists e = true <-> skipped).
  { unfold network_already_exists, skipped.
    rewrite !orb_true_iff, !has_code_iff, !message_includes_iff by discriminate.
    tauto. }
  rewrite addCeloNetwork_run, Heth, Hadd.
  destruct (network_already_exists e).
  - split; [reflexivity |]. intros Hn. exfalso. apply Hn, Hiff. reflexivity.
  - split; [| reflexivity]. intros Hs. apply Hiff in Hs. discriminate.
Qed.

End AddFailures.

(** ** Concrete runs behind wagmi's [switchChain] *)

Local Abbreviation ensure_behind s :=
  (ensureCeloNetwork (scripted_mutate s) celo11 0%nat).
Local Abbreviation verify_behind s :=
  (handleVerify (scripted_mutate s) celo11 contract_0x5afe true 0%nat).

Lemma scripted_mutate_never_rejects s : switch_never_rejects (scripted_mutate s).
Proof. intros target w. reflexivity. Qed.

(** C1, the claim as stated fails.  The wallet is on the target chain, but
    its first answer to the chain-id request is a failure:
    [ensureCeloNetwork] resolves false, while a direct read of the provider
    at that moment gives the target chain. *)
Lemma ensure_false_after_failed_read :
  ~ (settled (ensure_behind read_fails_once) = Resolved true <->
     provider_on_celo (scripted_mutate read_fails_once) celo11
       (world (ensure_behind read_fails_once)) = true).
Proof.
  intros [_ H]. specialize (H eq_refl). vm_compute in H. discriminate.
Qed.



(** C5, the claim as stated fails.  An add failure with the generic code
    -32603 and the message "Internal JSON-RPC error.", and one with code
    4902 and the message "Unrecognized chain ID.", say nothing of a chain
    that already exists, yet [addCeloNetwork] skips both. *)
Lemma generic_add_failure_is_skipped :
  ~ AlreadyRegistered_by_message internal_error /\
  settled (addCeloNetwork (scripted add_internal_error) celo11 0%nat)
    = Resolved tt /\
  ~ AlreadyRegistered_by_message unrecognized_chain /\
  settled (addCeloNetwork (scripted add_unrecognized_chain) celo11 0%nat)
    = Resolved tt.
Proof.
  assert (Hno : forall e needle,
            needle <> "" ->
            Js.includes (Js.message_or_empty e) needle = false ->
            ~ message_contains e needle).
  { intros e needle Hne Hf Hc. apply message_includes_iff in Hc; [| exact Hne].
    congruence. }
  repeat split.
  - intros [H | H]; revert H; apply Hno; (discriminate || reflexivity).
  - intros [H | H]; revert H; apply Hno; (discriminate || reflexivity).
Qed.

Lemma addCeloNetwork_skips_by_code_or_message_witness :
  let P := scripted add_internal_error in
  let skipped :=
    has_code internal_error 4902 \/ has_code internal_error (-32603)
    \/ message_contains internal_error "same RPC endpoint"
    \/ message_contains internal_error "existing network" in
  window_ethereum P 0%nat = true /\
  wallet_addEthereumChain P (celo_param celo11) 0%nat
    = (Rejected internal_error, 1%nat) /\
  ((skipped ->
    addCeloNetwork P celo11 0%nat =
      (Resolved tt, 1%nat,
       [AddEthereumChain (celo_param celo11) (Rejected internal_error);
        ConsoleLog "Network already exists in MetaMask, skipping add"])) /\
   (~ skipped ->
    addCeloNetwork P celo11 0%nat =
      (Rejected internal_error, 1%nat,
       [AddEthereumChain (celo_param celo11) (Rejected internal_error)]))).
Proof.
  cbn zeta. do 2 (split; [reflexivity |]).
  exact (addCeloNetwork_skips_by_code_or_message (scripted add_internal_error)
           celo11 0%nat internal_error 1%nat eq_refl eq_refl).
Defined.

Lemma add_fallback_is_never_entered_witness :
  switch_never_rejects (scripted_mutate unknown_chain_wallet) /\
  (add_requests (trace (ensure_behind unknown_chain_wallet)) = 0%nat /\
   (switch_requests (trace (ensure_behind unknown_chain_wallet)) <= 1)%nat).
Proof.
  split; [exact (scripted_mutate_never_rejects unknown_chain_wallet) |].
  exact (add_fallback_is_never_entered (scripted_mutate unknown_chain_wallet)
           celo11 0%nat (scripted_mutate_never_rejects unknown_chain_wallet)).
Defined.

Lemma unknown_chain_wallet_off_target :
  forall w', exists chain w'',
    eth_chainId (scripted_mutate unknown_chain_wallet) w' = (Resolved chain, w'')
    /\ is_celo celo11 chain = false.
Proof. intros w'. exists "0x1", (S w'). split; reflexivity. Qed.

Lemma off_target_wallet_times_out_witness :
  let P := scripted_mutate unknown_chain_wallet in
  let t := trace (ensure_behind unknown_chain_wallet) in
  switch_never_rejects P /\
  window_ethereum P 0%nat = true /\
  (forall w', exists chain w'',
      eth_chainId P w' = (Resolved chain, w'') /\ is_celo celo11 chain = false) /\
  (settled (ensure_behind unknown_chain_wallet) = Resolved false /\
   switch_requests t = 1%nat /\
   add_requests t = 0%nat /\
   List.length (filter is_read t) = 11%nat /\
   List.length (filter is_timeout t) = 10%nat /\
   (exists t',
       t = (t' ++ [Alert "Please approve the network switch in your wallet and try again."])%list) /\
   verify_behind unknown_chain_wallet =
     (Resolved tt, world (ensure_behind unknown_chain_wallet), t)).
Proof.
  cbn zeta.
  split; [exact (scripted_mutate_never_rejects unknown_chain_wallet) |].
  split; [reflexivity |].
  split; [exact unknown_chain_wallet_off_target |].
  exact (off_target_wallet_times_out (scripted_mutate unknown_chain_wallet)
           celo11 contract_0x5afe 0%nat
           (scripted_mutate_never_rejects unknown_chain_wallet) eq_refl
           unknown_chain_wallet_off_target).
Defined.
